(** * bad-server: session/token lifecycle and order consistency

    A shallow embedding of the backend core of the web shop:
    - [models/user.ts]       credential store, token minting, statistics,
                             and (second part of the file) the counter model
    - [models/order.ts]      order schema and its save/delete hooks
    - [controllers/auth.ts]  register/login/refresh/logout/update handlers
    - [controllers/order.ts] order creation, lookup, update, deletion
    - [controllers/customers.ts] customer update and deletion
    - [middlewares/validations.ts] (second part of the file) the session
                             middleware, the role guard and the ownership guard;
                             (first part) the phone pattern
    - [controllers/products.ts] product creation, update and deletion
    - [middlewares/error-handler.ts] the answer to an error

    The MongoDB store is an explicit state ([DB]) threaded through every
    handler. Collections looked up by [_id] are finite maps; collections
    whose document order is observable ([$last], [Array.find]) are lists
    in insertion order. Library calls (jsonwebtoken, crypto, bcrypt, bson,
    validator) and the environment configuration are the fields of the
    class [Platform]; nothing is assumed about them except where a lemma
    states a hypothesis. JS numbers that the code only adds and compares
    (prices, totals, counters, seconds) are integers ([Z]). *)

From Stdlib Require Import ZArith String Ascii DecimalString.
From stdpp Require Import gmap strings list sorting.

Local Open Scope Z_scope.
Local Open Scope string_scope.
Local Open Scope list_scope.

(** ** Identifiers, roles and errors *)

(** [Types.ObjectId]: an opaque document id. *)
Abbreviation ObjectId := nat.

(** [enum Role] (models/user.ts). *)
Inductive Role :=
| Customer
| Admin.

#[global] Instance Role_eq_dec : EqDecision Role.
Proof. solve_decision. Defined.

(** [Object.values(StatusType)] (models/order.ts) and
    [Object.values(PaymentType)] (middlewares/validations.ts): the strings
    the schema's enum validators accept. *)
Definition StatusType_values : list string :=
  ["cancelled"; "completed"; "new"; "delivering"].

Definition PaymentType_values : list string := ["card"; "online"].

(** The error classes of [errors/*-error.ts], by the names the sources
    import them under. *)
Inductive ErrKind :=
| BadRequestError
| UnauthorizedError
| ForbiddenError
| NotFoundError
| ConflictError.

#[global] Instance ErrKind_eq_dec : EqDecision ErrKind.
Proof. solve_decision. Defined.

(** The message literals of the sources, one constructor per literal
    (the two token messages of auth.ts:118 and validations.ts:179 differ
    by a space in the source and are kept apart). *)
Inductive ErrMsg :=
| MsgRefreshTokenInvalid                  (* controllers/auth.ts:118 *)
| MsgUserNotInBase                        (* controllers/auth.ts:129 *)
| MsgUserAbsent                           (* controllers/auth.ts:96, 215, 239 *)
| MsgBearerInvalid                        (* middlewares/validations.ts:179 *)
| MsgTokenExpired                         (* middlewares/validations.ts:207 *)
| MsgAuthRequired                         (* middlewares/validations.ts:209, 219, 247 *)
| MsgNoAccess                             (* middlewares/validations.ts:198 *)
| MsgAccessDenied                         (* middlewares/validations.ts:227, 271 *)
| MsgNotFound                             (* middlewares/validations.ts:260 *)
| MsgOrderAbsent                          (* controllers/order.ts:271, 298, 305, 391, 419 *)
| MsgOrderIdInvalid                       (* controllers/order.ts:277, 311, 401, 426 *)
| MsgProductMissing (id : ObjectId)       (* controllers/order.ts:337 *)
| MsgProductNotForSale (id : ObjectId)    (* controllers/order.ts:340 *)
| MsgWrongTotal                           (* controllers/order.ts:347 *)
| MsgBadCredentials                       (* models/user.ts:200, 207 *)
| MsgEmailTaken                           (* controllers/auth.ts:75 *)
| MsgValidation (paths : list string).    (* error.message of a ValidationError: the failing paths *)

#[global] Instance ErrMsg_eq_dec : EqDecision ErrMsg.
Proof. solve_decision. Defined.

(** Errors of the libraries that the handlers pass on unclassified. *)
Inductive RawError :=
| JsonWebTokenError
| TokenExpiredError
| CastError
| TypeError
| DuplicateKeyError (index : string).

#[global] Instance RawError_eq_dec : EqDecision RawError.
Proof. solve_decision. Defined.

Inductive Error :=
| HttpError (kind : ErrKind) (msg : ErrMsg)
| Raw (e : RawError).

#[global] Instance Error_eq_dec : EqDecision Error.
Proof. solve_decision. Defined.

(** What a middleware or a handler does with the request: it calls
    [next()] or sends its answer ([Done]), calls [next(err)] ([Failed]),
    or throws out of its async body ([Thrown]). *)
Inductive Outcome (A : Type) :=
| Done (a : A)
| Failed (e : Error)
| Thrown (e : Error).

Arguments Done {A} a.
Arguments Failed {A} e.
Arguments Thrown {A} e.

(** ** The data model *)

(** [IUser] (models/user.ts). [u_tokens] holds the [token] field of each
    entry of [tokens]. The [_id] of a stored user is its key in the store. *)
Record User := mkUser {
  u_name : string;
  u_email : string;
  u_password : string;
  u_tokens : list string;
  u_roles : list Role;
  u_phone : option string;
  u_totalAmount : Z;
  u_orderCount : Z;
  u_orders : list ObjectId;
  u_lastOrderDate : option Z;
  u_lastOrder : option ObjectId
}.

(** [IOrder] (models/order.ts), with the [createdAt] timestamp. The
    payment and the status are the strings of the request: the schema's
    enum validators decide whether they are stored. *)
Record Order := mkOrder {
  o_id : ObjectId;
  o_orderNumber : Z;
  o_status : string;
  o_totalAmount : Z;
  o_products : list ObjectId;
  o_payment : string;
  o_customer : ObjectId;
  o_deliveryAddress : string;
  o_phone : string;
  o_comment : string;
  o_email : string;
  o_createdAt : Z
}.

(** [IProduct] (models/product.ts); a [null] price is [None]. *)
Record Product := mkProduct {
  p_id : ObjectId;
  p_title : string;
  p_category : string;
  p_price : option Z
}.

(** The store. [counter] is the counter collection (it holds at most the
    one document the upsert creates). [statsRuns] is a ghost log: the
    owner of every [calculateOrderStats] call, oldest first. *)
Record DB := mkDB {
  users : gmap ObjectId User;
  orders : list Order;
  products : list Product;
  counter : option Z;
  statsRuns : list ObjectId
}.

Definition set_users (f : gmap ObjectId User -> gmap ObjectId User) (db : DB) : DB :=
  mkDB (f (users db)) (orders db) (products db) (counter db) (statsRuns db).

Definition set_orders (f : list Order -> list Order) (db : DB) : DB :=
  mkDB (users db) (f (orders db)) (products db) (counter db) (statsRuns db).

Definition set_counter (c : option Z) (db : DB) : DB :=
  mkDB (users db) (orders db) (products db) c (statsRuns db).

Definition log_statsRun (uid : ObjectId) (db : DB) : DB :=
  mkDB (users db) (orders db) (products db) (counter db) (statsRuns db ++ [uid]).

Definition with_tokens (ts : list string) (u : User) : User :=
  mkUser (u_name u) (u_email u) (u_password u) ts (u_roles u) (u_phone u)
         (u_totalAmount u) (u_orderCount u) (u_orders u) (u_lastOrderDate u) (u_lastOrder u).

Definition with_password (pw : string) (u : User) : User :=
  mkUser (u_name u) (u_email u) pw (u_tokens u) (u_roles u) (u_phone u)
         (u_totalAmount u) (u_orderCount u) (u_orders u) (u_lastOrderDate u) (u_lastOrder u).

Definition with_orders (os : list ObjectId) (u : User) : User :=
  mkUser (u_name u) (u_email u) (u_password u) (u_tokens u) (u_roles u) (u_phone u)
         (u_totalAmount u) (u_orderCount u) os (u_lastOrderDate u) (u_lastOrder u).

(** The four denormalised statistics fields of a user. *)
Record Stats := mkStats {
  s_totalAmount : Z;
  s_orderCount : Z;
  s_lastOrderDate : option Z;
  s_lastOrder : option ObjectId
}.


Definition with_stats (s : Stats) (u : User) : User :=
  mkUser (u_name u) (u_email u) (u_password u) (u_tokens u) (u_roles u) (u_phone u)
         (s_totalAmount s) (s_orderCount s) (u_orders u) (s_lastOrderDate s) (s_lastOrder s).

(** ** Libraries and configuration *)

(** The claims of a signed token that the code reads back. *)
Record JwtPayload := mkPayload {
  jwt_id : string;      (* the custom claim _id *)
  jwt_sub : string      (* the registered claim sub *)
}.

Inductive JwtVerify :=
| Verified (payload : JwtPayload)
| Expired
| Malformed.

Class Platform := {
  (* config.ts *)
  ACCESS_TOKEN_secret : string;
  ACCESS_TOKEN_expiry : Z;
  REFRESH_TOKEN_secret : string;
  REFRESH_TOKEN_expiry : Z;
  BCRYPT_saltRounds : Z;
  (* jsonwebtoken: sign claims secret expiresIn subject now, verify token secret now *)
  jwt_sign : string -> option string -> string -> Z -> string -> Z -> string;
  jwt_verify : string -> string -> Z -> JwtVerify;
  (* crypto.createHmac('sha256', key).update(data).digest('hex') *)
  hmac_sha256_hex : string -> string -> string;
  (* bcrypt.hash data rounds, with the salt it draws; bcrypt.compare data hash *)
  bcrypt_hash : string -> Z -> Z -> string;
  bcrypt_compare : string -> string -> bool;
  (* bson: id.toString() and the cast of a string to an ObjectId *)
  oid_toString : ObjectId -> string;
  oid_cast : string -> option ObjectId;
  (* validator.isEmail and phoneRegExp.test *)
  isEmail : string -> bool;
  phoneRegExp_test : string -> bool
}.

(** ** String helpers of the JS runtime *)

(** [s.split(sep)] for a one-character separator. *)
Fixpoint split_go (sep : ascii) (cur s : string) : list string :=
  match s with
  | EmptyString => [cur]
  | String c s' =>
      if Ascii.eqb c sep then cur :: split_go sep "" s'
      else split_go sep (cur +:+ String c "") s'
  end.

Definition split (sep : ascii) (s : string) : list string := split_go sep "" s.

(** [s.startsWith(p)]. *)
Definition startsWith (p s : string) : bool := String.prefix p s.

Section Model.
Context `{Platform}.

(** ** models/user.ts *)

(** The [pre('save')] hook [hashingPassword]: the password is hashed
    only when the document marks the path as modified. *)
Definition hashingPassword (passwordModified : bool) (salt : Z) (user : User) : User :=
  if passwordModified
  then with_password (bcrypt_hash (u_password user) BCRYPT_saltRounds salt) user
  else user.

Definition generateAccessToken (uid : ObjectId) (user : User) (now : Z) : string :=
  jwt_sign (oid_toString uid) (Some (u_email user))
           ACCESS_TOKEN_secret ACCESS_TOKEN_expiry (oid_toString uid) now.

(** [user.save()] after a change of [tokens] only: Mongoose writes the
    modified paths of the document, here the token list (the password is
    not modified, so [hashingPassword] does nothing). *)
Definition save_tokens (uid : ObjectId) (doc : User) (db : DB) : DB :=
  set_users (alter (with_tokens (u_tokens doc)) uid) db.

(** [generateRefreshToken]: returns the raw token, the document as the
    method leaves it, and the store after [save]. *)
Definition generateRefreshToken (uid : ObjectId) (user : User) (now : Z) (db : DB)
  : string * User * DB :=
  let refreshToken :=
    jwt_sign (oid_toString uid) None
             REFRESH_TOKEN_secret REFRESH_TOKEN_expiry (oid_toString uid) now in
  let rTknHash := hmac_sha256_hex REFRESH_TOKEN_secret refreshToken in
  let user' := with_tokens (u_tokens user ++ [rTknHash]) user in
  (refreshToken, user', save_tokens uid user' db).

(** JSON values, and a JS object as a finite map from its keys. *)
#[warnings="-register-all"]
Inductive JVal :=
| JNull
| JNum (n : Z)
| JStr (s : string)
| JArr (l : list JVal).

Definition roleValue (r : Role) : string :=
  match r with Customer => "customer" | Admin => "admin" end.

Definition JOpt {A} (f : A -> JVal) (o : option A) : JVal :=
  match o with Some a => f a | None => JNull end.

(** The plain object Mongoose hands to the [toJSON] transform
    ([virtuals: true] adds [id]); an undefined [phone] is no key. *)
Definition toObject (uid : ObjectId) (u : User) : gmap string JVal :=
  let base : gmap string JVal :=
    list_to_map
      [ ("_id", JStr (oid_toString uid));
        ("id", JStr (oid_toString uid));
        ("name", JStr (u_name u));
        ("email", JStr (u_email u));
        ("password", JStr (u_password u));
        ("tokens", JArr (JStr <$> u_tokens u));
        ("roles", JArr ((fun r => JStr (roleValue r)) <$> u_roles u));
        ("lastOrderDate", JOpt JNum (u_lastOrderDate u));
        ("lastOrder", JOpt (fun i => JStr (oid_toString i)) (u_lastOrder u));
        ("totalAmount", JNum (u_totalAmount u));
        ("orderCount", JNum (u_orderCount u));
        ("orders", JArr ((fun i => JStr (oid_toString i)) <$> u_orders u)) ] in
  match u_phone u with
  | Some ph => <["phone" := JStr ph]> base
  | None => base
  end.

(** The schema's [toJSON.transform]: four [delete]s, in source order. *)
Definition toJSON_transform (ret : gmap string JVal) : gmap string JVal :=
  delete "roles" (delete "_id" (delete "password" (delete "tokens" ret))).

Definition toJSON (uid : ObjectId) (u : User) : gmap string JVal :=
  toJSON_transform (toObject uid u).

(** ** controllers/auth.ts *)

(** [deleteRefreshTokenInUser]: [cookie] is [req.cookies.refreshToken].
    A verification failure is the library's own error, thrown through. *)
Definition deleteRefreshTokenInUser (cookie : option string) (now : Z) (db : DB)
  : Error + (ObjectId * User * DB) :=
  match cookie with
  | None => inl (HttpError UnauthorizedError MsgRefreshTokenInvalid)
  | Some rfTkn =>
      if decide (rfTkn = "") then inl (HttpError UnauthorizedError MsgRefreshTokenInvalid)
      else
        match jwt_verify rfTkn REFRESH_TOKEN_secret now with
        | Expired => inl (Raw TokenExpiredError)
        | Malformed => inl (Raw JsonWebTokenError)
        | Verified decodedRefreshTkn =>
            match oid_cast (jwt_id decodedRefreshTkn) with
            | None => inl (Raw CastError)
            | Some uid =>
                match users db !! uid with
                | None => inl (HttpError UnauthorizedError MsgUserNotInBase)
                | Some user =>
                    let rTknHash := hmac_sha256_hex REFRESH_TOKEN_secret rfTkn in
                    let user' :=
                      with_tokens
                        (filter (fun tokenObj => tokenObj <> rTknHash) (u_tokens user))
                        user in
                    inr (uid, user', save_tokens uid user' db)
                end
            end
        end
  end.

(** [logout]: the answer carries no data. *)
Definition logout (cookie : option string) (now : Z) (db : DB) : Outcome unit * DB :=
  match deleteRefreshTokenInUser cookie now db with
  | inl e => (Failed e, db)
  | inr (_, _, db') => (Done tt, db')
  end.

(** What [refreshAccessToken], [login] and [register] answer with. *)
Record Session := mkSession {
  ses_user : ObjectId * User;
  ses_accessToken : string;
  ses_refreshCookie : string
}.

Definition refreshAccessToken (cookie : option string) (now : Z) (db : DB)
  : Outcome Session * DB :=
  match deleteRefreshTokenInUser cookie now db with
  | inl e => (Failed e, db)
  | inr (uid, userWithRefreshTkn, db1) =>
      let accessToken := generateAccessToken uid userWithRefreshTkn now in
      let '(refreshToken, user', db2) :=
        generateRefreshToken uid userWithRefreshTkn now db1 in
      (Done (mkSession (uid, user') accessToken refreshToken), db2)
  end.

(** The schema default of [name]. *)
Definition defaultName : string := "Евлампий".

(** The schema validators that run when a new user is saved
    ([String.length] counts bytes; it is the JS length on ASCII). *)
Definition validateUser (u : User) : list string :=
  (if (String.length (u_name u) <? 2)%nat || (30 <? String.length (u_name u))%nat
   then ["name"] else [])
  ++ (if decide (u_email u = "") then ["email"]
      else if isEmail (u_email u) then [] else ["email"])
  ++ (if (String.length (u_password u) <? 6)%nat then ["password"] else []).

(** [register]: [name] takes the schema default when the body has none;
    [newId] is the id the driver draws for the document, [salt] the salt
    bcrypt draws. The handler answers every duplicate-key error of the
    insert (the unique [email], the [_id]) as the same conflict. *)
Definition register (email password : string) (name : option string)
    (newId : ObjectId) (salt now : Z) (db : DB)
  : Outcome Session * DB :=
  let newUser :=
    mkUser (default defaultName name) email password [] [Customer] None 0 0 [] None None in
  match validateUser newUser with
  | _ :: _ as paths => (Failed (HttpError BadRequestError (MsgValidation paths)), db)
  | [] =>
      let hashed := hashingPassword true salt newUser in
      if bool_decide (map_Exists (fun _ u => u_email u = email) (users db))
      then (Failed (HttpError ConflictError MsgEmailTaken), db)
      else
        match users db !! newId with
        | Some _ => (Failed (HttpError ConflictError MsgEmailTaken), db)
        | None =>
            let db1 := set_users (insert newId hashed) db in
            let accessToken := generateAccessToken newId hashed now in
            let '(refreshToken, user', db2) := generateRefreshToken newId hashed now db1 in
            (Done (mkSession (newId, user') accessToken refreshToken), db2)
        end
  end.

(** The body of [PATCH /auth/user] and [PATCH /customers/:id], for the
    schema paths modelled here; a key the body lacks is [None]. *)
Record UserPatch := mkUserPatch {
  patch_name : option string;
  patch_password : option string;
  patch_phone : option string;
  patch_roles : option (list Role)
}.

Definition applyPatch (b : UserPatch) (u : User) : User :=
  mkUser (default (u_name u) (patch_name b)) (u_email u)
         (default (u_password u) (patch_password b)) (u_tokens u)
         (default (u_roles u) (patch_roles b))
         (match patch_phone b with Some ph => Some ph | None => u_phone u end)
         (u_totalAmount u) (u_orderCount u) (u_orders u)
         (u_lastOrderDate u) (u_lastOrder u).

(** [updateCurrentUser]: [User.findByIdAndUpdate(userId, req.body, {new: true})].
    A query update runs no [save] hook. *)
Definition updateCurrentUser (userId : ObjectId) (body : UserPatch) (db : DB)
  : Outcome User * DB :=
  match users db !! userId with
  | None => (Failed (HttpError NotFoundError MsgUserAbsent), db)
  | Some u =>
      let updatedUser := applyPatch body u in
      (Done updatedUser, set_users (insert userId updatedUser) db)
  end.

(** [findUserByCredentials] (models/user.ts): the user with the email,
    and the comparison of the password with the stored hash. *)
Definition findUserByCredentials (email password : string) (db : DB)
  : Error + (ObjectId * User) :=
  match find (fun iu => bool_decide (u_email (snd iu) = email)) (map_to_list (users db)) with
  | None => inl (HttpError UnauthorizedError MsgBadCredentials)
  | Some (uid, user) =>
      if bcrypt_compare password (u_password user) then inr (uid, user)
      else inl (HttpError UnauthorizedError MsgBadCredentials)
  end.

Definition login (email password : string) (now : Z) (db : DB) : Outcome Session * DB :=
  match findUserByCredentials email password db with
  | inl e => (Failed e, db)
  | inr (uid, user) =>
      let accessToken := generateAccessToken uid user now in
      let '(refreshToken, user', db') := generateRefreshToken uid user now db in
      (Done (mkSession (uid, user') accessToken refreshToken), db')
  end.

(** ** controllers/customers.ts *)

(** [updateCustomer]: the same query update as [updateCurrentUser], on
    the id of the route ([None] when it does not cast to an id). *)
Definition updateCustomer (id : option ObjectId) (body : UserPatch) (db : DB)
  : Outcome User * DB :=
  match id with
  | None => (Failed (Raw CastError), db)
  | Some i => updateCurrentUser i body db
  end.

(** [deleteCustomer]: [User.findByIdAndDelete(req.params.id)]. *)
Definition deleteCustomer (id : option ObjectId) (db : DB) : Outcome User * DB :=
  match id with
  | None => (Failed (Raw CastError), db)
  | Some i =>
      match users db !! i with
      | None => (Failed (HttpError NotFoundError MsgUserAbsent), db)
      | Some deletedUser => (Done deletedUser, set_users (delete i) db)
      end
  end.

(** ** middlewares/validations.ts: the session middleware and the guards *)

(** [auth]: [authHeader] is [req.header('Authorization')]; on success
    the loaded user is what [res.locals.user] holds (the projection that
    leaves the password out of the loaded document is not modelled: no
    guard reads the field). *)
Definition auth (authHeader : option string) (now : Z) (db : DB)
  : Outcome (ObjectId * User) :=
  match authHeader with
  | None => Thrown (HttpError UnauthorizedError MsgBearerInvalid)
  | Some header =>
      if negb (startsWith "Bearer " header)
      then Thrown (HttpError UnauthorizedError MsgBearerInvalid)
      else
        let accessTokenParts := split " "%char header in
        let verified :=
          match accessTokenParts !! 1%nat with
          | Some aTkn => jwt_verify aTkn ACCESS_TOKEN_secret now
          | None => Malformed
          end in
        match verified with
        | Expired => Failed (HttpError UnauthorizedError MsgTokenExpired)
        | Malformed => Failed (HttpError UnauthorizedError MsgAuthRequired)
        | Verified payload =>
            match oid_cast (jwt_sub payload) with
            | None => Failed (HttpError UnauthorizedError MsgAuthRequired)
            | Some uid =>
                match users db !! uid with
                | None => Failed (HttpError ForbiddenError MsgNoAccess)
                | Some user => Done (uid, user)
                end
            end
        end
  end.

(** [roleGuardMiddleware(...roles)]: [locals] is [res.locals.user]. *)
Definition roleGuardMiddleware (roles : list Role) (locals : option (ObjectId * User))
  : Outcome unit :=
  match locals with
  | None => Failed (HttpError UnauthorizedError MsgAuthRequired)
  | Some (_, user) =>
      let hasAccess := existsb (fun role => bool_decide (role ∈ u_roles user)) roles in
      if negb hasAccess then Failed (HttpError ForbiddenError MsgAccessDenied)
      else Done tt
  end.

(** [currentUserAccessMiddleware(model, idProperty, userProperty)]:
    [findById] is the lookup of the model, [id] the value of
    [req.params[idProperty]] as an id, [userProperty] the owner field. *)
Definition currentUserAccessMiddleware {T : Type}
    (findById : ObjectId -> DB -> option T) (userProperty : T -> ObjectId)
    (id : ObjectId) (locals : option (ObjectId * User)) (db : DB) : Outcome unit :=
  match locals with
  | None => Failed (HttpError UnauthorizedError MsgAuthRequired)
  | Some (uid, user) =>
      if bool_decide (Admin ∈ u_roles user) then Done tt
      else
        match findById id db with
        | None => Failed (HttpError NotFoundError MsgNotFound)
        | Some entity =>
            let userEntityId := userProperty entity in
            let hasAccess := bool_decide (uid = userEntityId) in
            if negb hasAccess then Failed (HttpError ForbiddenError MsgAccessDenied)
            else Done tt
        end
  end.

(** ** The counter model and models/order.ts *)

(** [Counter.findOneAndUpdate({}, {$inc: {sequenceValue: 1}},
    {new: true, upsert: true})]: increments the counter document, creating
    it (with the increment applied to no value) when the collection is
    empty, and returns the new value. *)
Definition Counter_increment (db : DB) : Z * DB :=
  let sequenceValue := default 0 (counter db) + 1 in
  (sequenceValue, set_counter (Some sequenceValue) db).

Definition with_orderNumber (n : Z) (o : Order) : Order :=
  mkOrder (o_id o) n (o_status o) (o_totalAmount o) (o_products o) (o_payment o)
          (o_customer o) (o_deliveryAddress o) (o_phone o) (o_comment o) (o_email o)
          (o_createdAt o).

Definition with_status (st : string) (o : Order) : Order :=
  mkOrder (o_id o) (o_orderNumber o) st (o_totalAmount o) (o_products o) (o_payment o)
          (o_customer o) (o_deliveryAddress o) (o_phone o) (o_comment o) (o_email o)
          (o_createdAt o).

(** The [pre('save')] hook [incrementOrderNumber]. *)
Definition incrementOrderNumber (isNew : bool) (order : Order) (db : DB) : Order * DB :=
  if isNew then
    let '(sequenceValue, db') := Counter_increment db in
    (with_orderNumber sequenceValue order, db')
  else (order, db).

(** The [$match] stage of [calculateOrderStats]. *)
Definition ordersOfCustomer (uid : ObjectId) (os : list Order) : list Order :=
  filter (fun o => o_customer o = uid) os.

(** The [$group] stage with [_id: null]: no document for no input,
    else the sum, the maximum, the count and the last id, in the
    collection's order. *)
Definition aggregateOrderStats (os : list Order) : option Stats :=
  match os with
  | [] => None
  | o0 :: rest =>
      Some (mkStats
              (fold_left (fun a o => a + o_totalAmount o) os 0)
              (Z.of_nat (length os))
              (Some (fold_left Z.max (o_createdAt <$> rest) (o_createdAt o0)))
              (o_id <$> last os))
  end.

(** What [calculateOrderStats] assigns: the aggregation result, or the
    reset values when the user has no order. *)
Definition recomputedStats (uid : ObjectId) (db : DB) : Stats :=
  match aggregateOrderStats (ordersOfCustomer uid (orders db)) with
  | Some stats => stats
  | None => mkStats 0 0 None None
  end.

(** [calculateOrderStats]: sets the four statistics fields of the
    document and saves it; Mongoose writes the modified paths, so the
    stored record changes in these fields. The call is logged. *)
Definition calculateOrderStats (uid : ObjectId) (db : DB) : DB :=
  log_statsRun uid (set_users (alter (with_stats (recomputedStats uid db)) uid) db).

(** The [post('save')] hook [updateUserStats]: the pushed order id is
    written by the [save] inside [calculateOrderStats]. *)
Definition updateUserStats_save (doc : Order) (db : DB) : DB :=
  match users db !! o_customer doc with
  | None => db
  | Some _ =>
      calculateOrderStats (o_customer doc)
        (set_users
           (alter (fun user => with_orders (u_orders user ++ [o_id doc]) user)
                  (o_customer doc)) db)
  end.

(** The [post('findOneAndDelete')] hook [updateUserStats]: [$pull] on
    the stored user, then the recomputation on the returned document. *)
Definition updateUserStats_delete (order : Order) (db : DB) : DB :=
  match users db !! o_customer order with
  | None => db
  | Some _ =>
      calculateOrderStats (o_customer order)
        (set_users
           (alter (fun user =>
                     with_orders (filter (fun i => i <> o_id order) (u_orders user)) user)
                  (o_customer order)) db)
  end.

(** The validators of the order schema, as the failing paths. *)
Definition validateOrder (o : Order) : list string :=
  (if bool_decide (o_status o ∈ StatusType_values) then [] else ["status"])
  ++ (if bool_decide (o_payment o ∈ PaymentType_values) then [] else ["payment"])
  ++ (if decide (o_email o = "") then ["email"]
      else if isEmail (o_email o) then [] else ["email"])
  ++ (if decide (o_phone o = "") then ["phone"]
      else if phoneRegExp_test (o_phone o) then [] else ["phone"]).

(** The insert of a new order document under the unique indexes on
    [_id] and [orderNumber]. *)
Definition insertOrder (o : Order) (db : DB) : option RawError * DB :=
  if bool_decide (o_id o ∈ (o_id <$> orders db))
  then (Some (DuplicateKeyError "_id"), db)
  else if bool_decide (o_orderNumber o ∈ (o_orderNumber <$> orders db))
  then (Some (DuplicateKeyError "orderNumber"), db)
  else (None, set_orders (fun os => os ++ [o]) db).

(** [doc.save()] on a new order: validation runs first (it is
    Mongoose's own first [pre('save')] hook), then [incrementOrderNumber],
    the insert, and the [post('save')] hook. *)
Definition Order_save (doc : Order) (db : DB) : (Error + Order) * DB :=
  match validateOrder doc with
  | _ :: _ as paths => (inl (HttpError BadRequestError (MsgValidation paths)), db)
  | [] =>
      let '(doc', db1) := incrementOrderNumber true doc db in
      match insertOrder doc' db1 with
      | (Some e, db2) => (inl (Raw e), db2)
      | (None, db2) => (inr doc', updateUserStats_save doc' db2)
      end
  end.

(** ** controllers/order.ts *)

(** The body of [POST /order]. *)
Record OrderBody := mkOrderBody {
  b_address : string;
  b_payment : string;
  b_phone : string;
  b_total : Z;
  b_email : string;
  b_items : list ObjectId;
  b_comment : string
}.

(** [products.find((p) => p._id.equals(id))]. *)
Definition findProduct (ps : list Product) (id : ObjectId) : option Product :=
  find (fun p => bool_decide (p_id p = id)) ps.

(** The [items.forEach] of [createOrder]: the first item that is
    unknown or not for sale throws; otherwise the basket grows. *)
Fixpoint fillBasket (ps : list Product) (items : list ObjectId) (basket : list Product)
  : Error + list Product :=
  match items with
  | [] => inr basket
  | id :: items' =>
      match findProduct ps id with
      | None => inl (HttpError BadRequestError (MsgProductMissing id))
      | Some product =>
          match p_price product with
          | None => inl (HttpError BadRequestError (MsgProductNotForSale id))
          | Some _ => fillBasket ps items' (basket ++ [product])
          end
      end
  end.

(** [basket.reduce((a, c) => a + c.price, 0)]; a [null] price adds 0. *)
Definition totalBasket (basket : list Product) : Z :=
  fold_left (fun a c => a + default 0 (p_price c)) basket 0.

(** [new Order({...})] in [createOrder]: the status takes the schema
    default; the order number is unset until the [pre('save')] hook. *)
Definition newOrderDoc (userId : ObjectId) (body : OrderBody) (newId : ObjectId)
    (now : Z) : Order :=
  mkOrder newId 0 "new" (b_total body) (b_items body) (b_payment body) userId
          (b_address body) (b_phone body) (b_comment body) (b_email body) now.

(** [createOrder]: [userId] is [res.locals.user._id], [newId] the id the
    driver draws for the new document, [now] the clock at the save. *)
Definition createOrder (userId : ObjectId) (body : OrderBody) (newId : ObjectId)
    (now : Z) (db : DB) : Outcome Order * DB :=
  match fillBasket (products db) (b_items body) [] with
  | inl e => (Failed e, db)
  | inr basket =>
      if negb (totalBasket basket =? b_total body)%Z
      then (Failed (HttpError BadRequestError MsgWrongTotal), db)
      else
        let newOrder := newOrderDoc userId body newId now in
        match Order_save newOrder db with
        | (inl e, db') => (Failed e, db')
        | (inr populateOrder, db') => (Done populateOrder, db')
        end
  end.

(** [Order.findOne({orderNumber})]. *)
Definition findOrderByNumber (n : Z) (os : list Order) : option Order :=
  find (fun o => bool_decide (o_orderNumber o = n)) os.

(** [Order.findById(id)]. *)
Definition findOrderById (id : ObjectId) (os : list Order) : option Order :=
  find (fun o => bool_decide (o_id o = id)) os.

(** [getOrderCurrentUserByNumber]: [orderNumber] is the route parameter
    cast to a number, [None] when the cast fails. A [populate] of a
    customer that is gone leaves [null], and reading its [_id] throws. *)
Definition getOrderCurrentUserByNumber (userId : ObjectId) (orderNumber : option Z)
    (db : DB) : Outcome Order :=
  match orderNumber with
  | None => Failed (HttpError BadRequestError MsgOrderIdInvalid)
  | Some n =>
      match findOrderByNumber n (orders db) with
      | None => Failed (HttpError NotFoundError MsgOrderAbsent)
      | Some order =>
          match users db !! o_customer order with
          | None => Failed (Raw TypeError)
          | Some _ =>
              if negb (bool_decide (o_customer order = userId))
              then Failed (HttpError NotFoundError MsgOrderAbsent)
              else Done order
          end
      end
  end.

(** Replaces the first element that satisfies [P]. *)
Fixpoint updateFirst {A} (P : A -> bool) (f : A -> A) (l : list A) : list A :=
  match l with
  | [] => []
  | x :: l' => if P x then f x :: l' else x :: updateFirst P f l'
  end.

(** Removes the first element that satisfies [P]. *)
Fixpoint removeFirst {A} (P : A -> bool) (l : list A) : list A :=
  match l with
  | [] => []
  | x :: l' => if P x then l' else x :: removeFirst P l'
  end.

(** [updateOrder]: [Order.findOneAndUpdate({orderNumber}, {status},
    {new: true, runValidators: true})]; a query update runs no [save]
    hook. *)
Definition updateOrder (orderNumber : option Z) (status : string) (db : DB)
  : Outcome Order * DB :=
  match orderNumber with
  | None => (Failed (HttpError BadRequestError MsgOrderIdInvalid), db)
  | Some n =>
      if negb (bool_decide (status ∈ StatusType_values))
      then (Failed (HttpError BadRequestError (MsgValidation ["status"])), db)
      else
        match findOrderByNumber n (orders db) with
        | None => (Failed (HttpError NotFoundError MsgOrderAbsent), db)
        | Some order =>
            (Done (with_status status order),
             set_orders
               (updateFirst (fun o => bool_decide (o_orderNumber o = n)) (with_status status))
               db)
        end
  end.

(** [deleteOrder]: [Order.findByIdAndDelete(req.params.id)], which runs
    the [findOneAndDelete] hook; [id] is the parameter cast to an id. *)
Definition deleteOrder (id : option ObjectId) (db : DB) : Outcome Order * DB :=
  match id with
  | None => (Failed (HttpError BadRequestError MsgOrderIdInvalid), db)
  | Some i =>
      match findOrderById i (orders db) with
      | None => (Failed (HttpError NotFoundError MsgOrderAbsent), db)
      | Some deletedOrder =>
          (Done deletedOrder,
           updateUserStats_delete deletedOrder
             (set_orders (removeFirst (fun o => bool_decide (o_id o = i))) db))
      end
  end.

(** ** The requests that change users or orders

    (the product handlers change the catalog only and are left out) *)

Inductive Request :=
| PostRegister (email password : string) (name : option string) (newId : ObjectId) (salt : Z)
| PostLogin (email password : string)
| PatchCustomer (id : option ObjectId) (body : UserPatch)
| DeleteCustomer (id : option ObjectId)
| GetLogout (cookie : option string)
| GetToken (cookie : option string)
| PatchUser (userId : ObjectId) (body : UserPatch)
| PostOrder (userId : ObjectId) (body : OrderBody) (newId : ObjectId)
| PatchOrder (orderNumber : option Z) (status : string)
| DeleteOrder (id : option ObjectId).

(** The store after a request served at time [now]. *)
Definition handle (r : Request) (now : Z) (db : DB) : DB :=
  match r with
  | PostRegister email password name newId salt =>
      snd (register email password name newId salt now db)
  | PostLogin email password => snd (login email password now db)
  | PatchCustomer id body => snd (updateCustomer id body db)
  | DeleteCustomer id => snd (deleteCustomer id db)
  | GetLogout cookie => snd (logout cookie now db)
  | GetToken cookie => snd (refreshAccessToken cookie now db)
  | PatchUser userId body => snd (updateCurrentUser userId body db)
  | PostOrder userId body newId => snd (createOrder userId body newId now db)
  | PatchOrder orderNumber status => snd (updateOrder orderNumber status db)
  | DeleteOrder id => snd (deleteOrder id db)
  end.

(** The store after a list of requests, each with its time. *)
Definition run (rs : list (Request * Z)) (db : DB) : DB :=
  fold_left (fun d r => handle (fst r) (snd r) d) rs db.

End Model.


(** The requests that reach the order collection. *)
Definition touchesOrders (r : Request) : bool :=
  match r with
  | PostOrder _ _ _ | PatchOrder _ _ | DeleteOrder _ => true
  | _ => false
  end.

(** The id a request gives to the order it creates, if it creates one. *)
Definition createdId (r : Request) : option ObjectId :=
  match r with
  | PostOrder _ _ newId => Some newId
  | _ => None
  end.

(** ** The claims of the specification, in its own words *)

(** An item id that resolves to no product of the catalog. *)
Definition unknownItem (ps : list Product) (id : ObjectId) : Prop :=
  findProduct ps id = None.

(** An item id that resolves to a product with a null price. *)
Definition nullPriceItem (ps : list Product) (id : ObjectId) : Prop :=
  exists p, findProduct ps id = Some p /\ p_price p = None.

(** The prices of the items that resolve to a priced product. *)
Definition resolvedPrices (ps : list Product) (items : list ObjectId) : list Z :=
  omap (fun id => findProduct ps id ≫= p_price) items.

Definition sumZ (l : list Z) : Z := foldr Z.add 0 l.

(** Section 8: rejected iff an item is unknown, an item has a null
    price, or the sum of the resolved prices is not the declared total. *)
Definition basketRejected (ps : list Product) (items : list ObjectId) (total : Z) : Prop :=
  (exists id, id ∈ items /\ unknownItem ps id)
  \/ (exists id, id ∈ items /\ nullPriceItem ps id)
  \/ sumZ (resolvedPrices ps items) <> total.


(** The store invariant the unique indexes and the counter maintain:
    order ids and order numbers are pairwise distinct, and no order
    number is beyond the counter. *)
Definition storeOk (db : DB) : Prop :=
  NoDup (o_id <$> orders db)
  /\ NoDup (o_orderNumber <$> orders db)
  /\ forall o, o ∈ orders db -> o_orderNumber o <= default 0 (counter db).

(** ** A small executable platform and store *)

Definition nat_to_string (n : nat) : string :=
  NilEmpty.string_of_uint (Nat.to_uint n).

Definition string_to_nat (s : string) : option nat :=
  Nat.of_uint <$> NilEmpty.uint_of_string s.

(** Tokens of the form [secret|_id|sub|exp]; a token verifies under the
    secret it was signed with until the clock reaches [exp]. *)
Definition simple_sign (id : string) (email : option string) (secret : string)
    (expiresIn : Z) (subject : string) (now : Z) : string :=
  secret +:+ "|" +:+ id +:+ "|" +:+ subject +:+ "|"
         +:+ nat_to_string (Z.to_nat (now + expiresIn)).

Definition simple_verify (token secret : string) (now : Z) : JwtVerify :=
  match split "|"%char token with
  | [k; id; sub; exp] =>
      if decide (k = secret) then
        match string_to_nat exp with
        | Some e => if (now <? Z.of_nat e)%Z then Verified (mkPayload id sub) else Expired
        | None => Malformed
        end
      else Malformed
  | _ => Malformed
  end.

Definition simple_hash (data : string) (rounds salt : Z) : string :=
  "$" +:+ nat_to_string (Z.to_nat salt) +:+ "$" +:+ data.

Definition simple_compare (data hash : string) : bool :=
  match split "$"%char hash with
  | [_; _; d] => bool_decide (d = data)
  | _ => false
  end.

Definition contains (c : ascii) (s : string) : bool :=
  existsb (Ascii.eqb c) (list_ascii_of_string s).

(** A phone number made of digits, spaces and [+-()]. *)
Definition simple_phone (s : string) : bool :=
  forallb (fun c => contains c "0123456789+-() ") (list_ascii_of_string s).

Definition SimplePlatform : Platform := {|
  ACCESS_TOKEN_secret := "access-secret";
  ACCESS_TOKEN_expiry := 86400;
  REFRESH_TOKEN_secret := "refresh-secret";
  REFRESH_TOKEN_expiry := 604800;
  BCRYPT_saltRounds := 10;
  jwt_sign := simple_sign;
  jwt_verify := simple_verify;
  hmac_sha256_hex := fun key data => "hmac:" +:+ key +:+ ":" +:+ data;
  bcrypt_hash := simple_hash;
  bcrypt_compare := simple_compare;
  oid_toString := nat_to_string;
  oid_cast := string_to_nat;
  isEmail := contains "@"%char;
  phoneRegExp_test := simple_phone
|}.

Definition alice : User :=
  mkUser "Alice" "alice@shop.io" "$1$wonderland" [] [Customer] None 0 0 [] None None.

Definition bob : User :=
  mkUser "Bob" "bob@shop.io" "$2$builder1" [] [Customer] None 0 0 [] None None.

Definition root : User :=
  mkUser "Root" "root@shop.io" "$3$toor-toor" [] [Admin] None 0 0 [] None None.

Definition catalog : list Product :=
  [ mkProduct 10 "mug" "kitchen" (Some 10);
    mkProduct 11 "lamp" "home" (Some 20);
    mkProduct 12 "poster" "home" None ].

(** Three users, three products, no orders, no counter document. *)
Definition shop0 : DB :=
  mkDB (<[1%nat := alice]> (<[2%nat := bob]> (<[3%nat := root]> ∅))) [] catalog None [].

Definition basketBody (items : list ObjectId) (total : Z) : OrderBody :=
  mkOrderBody "1 Main St" "card" "+1 555 0100" total "alice@shop.io" items "".

(** Alice's order 100 (number 1) in the small store. *)
Definition aliceOrder : Order :=
  mkOrder 100 1 "new" 30 [10%nat; 11%nat] "card" 1 "1 Main St" "+1 555 0100" ""
          "alice@shop.io" 50.

Definition shop1 : DB :=
  snd (createOrder (H := SimplePlatform) 1%nat (basketBody [10%nat; 11%nat] 30) 100%nat 50 shop0).

(** A user registered at time 1000 in the small store, and the refresh
    token the registration hands out. *)
Definition carolShop : DB :=
  snd (register (H := SimplePlatform) "carol@shop.io" "secret1" None 4%nat 7 1000 shop0).

Definition carolToken : string := "refresh-secret|4|4|605800".

(** * More of the code

    The handlers and helpers below are the rest of the files above that
    can be run on the same store: the error handler, the read handlers
    of users and orders, the paginated list of a user's orders, the
    product handlers and the phone pattern. *)

(** ** middlewares/error-handler.ts *)

(** The text the client receives: the fixed text for status 500, or the
    message of the error itself. *)
Inductive ClientMessage :=
| ServerErrorText                 (* error-handler.ts:12 *)
| ErrorText (m : ErrMsg)
| LibraryText (e : RawError).

Section ErrorHandler.

(** The [statusCode] field each error class of [errors/*-error.ts] sets;
    the classes are not among the sources, so the codes are a parameter. *)
Variable statusCode : ErrKind -> Z.

(** [err.statusCode]: library errors have no such field. *)
Definition errorStatusCode (err : Error) : option Z :=
  match err with
  | HttpError kind _ => Some (statusCode kind)
  | Raw _ => None
  end.

(** [errorHandler]: the status and the message that are sent. *)
Definition errorHandler (err : Error) : Z * ClientMessage :=
  let code :=
    match errorStatusCode err with
    | Some c => if (c =? 0)%Z then 500 else c
    | None => 500
    end in
  let message :=
    if (code =? 500)%Z then ServerErrorText
    else match err with
         | HttpError _ m => ErrorText m
         | Raw e => LibraryText e
         end in
  (code, message).

End ErrorHandler.

(** ** controllers/auth.ts and controllers/order.ts: the read handlers *)

Section ModelReads.
Context `{Platform}.

(** [getCurrentUser]: the [user] of the answer, as [res.json] serializes
    it through the schema's [toJSON]. *)
Definition getCurrentUser (userId : ObjectId) (db : DB) : Outcome (gmap string JVal) :=
  match users db !! userId with
  | None => Failed (HttpError NotFoundError MsgUserAbsent)
  | Some user => Done (toJSON userId user)
  end.

End ModelReads.

(** [getOrderByNumber]: the lookup of the admin route. *)
Definition getOrderByNumber (orderNumber : option Z) (db : DB) : Outcome Order :=
  match orderNumber with
  | None => Failed (HttpError BadRequestError MsgOrderIdInvalid)
  | Some n =>
      match findOrderByNumber n (orders db) with
      | None => Failed (HttpError NotFoundError MsgOrderAbsent)
      | Some order => Done order
      end
  end.

(** ** controllers/order.ts: getOrdersCurrentUser *)

(** [arr.slice(start, end)] for integer arguments: a negative index
    counts from the end, and both are clamped to the array. *)
Definition js_slice {A} (start end_ : Z) (l : list A) : list A :=
  let len := Z.of_nat (length l) in
  let k := if (start <? 0)%Z then Z.max (len + start) 0 else Z.min start len in
  let final := if (end_ <? 0)%Z then Z.max (len + end_) 0 else Z.min end_ len in
  take (Z.to_nat (final - k)) (drop (Z.to_nat k) l).

(** [Math.ceil(a / b)] for integers and [b] not 0. *)
Definition ceilDiv (a b : Z) : Z := - ((- a) / b).

(** The [pagination] block of the answer; [totalPages] is [None] where
    the division by a zero limit gives no finite number. *)
Record Pagination := mkPagination {
  totalOrders : Z;
  totalPages : option Z;
  currentPage : Z;
  pageSize : Z
}.

Record OrdersPage := mkOrdersPage {
  page_orders : list Order;
  page_pagination : Pagination
}.

(** What the handler passes to [next]: an error of the store, or the
    [SyntaxError] of the [RegExp] constructor. *)
Inductive ListFailure :=
| ListError (e : Error)
| ListSyntaxError.

(** [populate('orders')]: the stored orders of the ids, in the order of
    the ids; an id without a document is left out. *)
Definition populateOrders (ids : list ObjectId) (db : DB) : list Order :=
  omap (fun id => findOrderById id (orders db)) ids.

Section Listing.

(** [new RegExp(search, 'i')] as the test it compiles to, [None] when
    the constructor throws; [Number(search)] where it is an integer,
    [None] for [NaN] and for a number that equals no order number. *)
Variable regExp : string -> option (string -> bool).
Variable toNumber : string -> option Z.

(** The filter of [getOrdersCurrentUser] under a search text. *)
Definition matchesSearch (test : string -> bool) (searchNumber : option Z)
    (ps : list Product) (order : Order) : bool :=
  let matchesProductTitle :=
    existsb (fun product =>
               existsb (fun p => bool_decide (p_id p = product) && test (p_title p)) ps)
            (o_products order) in
  let matchesOrderNumber :=
    match searchNumber with
    | Some n => bool_decide (o_orderNumber order = n)
    | None => false
    end in
  matchesOrderNumber || matchesProductTitle.

(** [getOrdersCurrentUser]: [search], [page] and [limit] are the query
    values ([page] and [limit] after their defaults, as integers). *)
Definition getOrdersCurrentUser (userId : ObjectId) (search : option string)
    (page limit : Z) (db : DB) : ListFailure + OrdersPage :=
  let skip := (page - 1) * limit in
  match users db !! userId with
  | None => inl (ListError (HttpError NotFoundError MsgUserAbsent))
  | Some user =>
      let orders0 := populateOrders (u_orders user) db in
      let filtered :=
        match search with
        | None => inr orders0
        | Some text =>
            if decide (text = "") then inr orders0
            else
              match regExp text with
              | None => inl ListSyntaxError
              | Some test =>
                  inr (List.filter (matchesSearch test (toNumber text) (products db)) orders0)
              end
        end in
      match filtered with
      | inl e => inl e
      | inr found =>
          let total := Z.of_nat (length found) in
          inr (mkOrdersPage
                 (js_slice skip (skip + limit) found)
                 (mkPagination total
                    (if (limit =? 0)%Z then None else Some (ceilDiv total limit))
                    page limit))
      end
  end.

End Listing.

(** ** controllers/products.ts *)

(** The message literals of the product handlers. *)
Inductive ProductMsg :=
| MsgNoProduct                            (* controllers/products.ts:122, 148 *)
| MsgProductIdInvalid                     (* controllers/products.ts:130, 155 *)
| MsgTitleTaken                           (* controllers/products.ts:74, 134 *)
| MsgProductValidation (paths : list string).

Inductive ProductError :=
| ProductHttpError (kind : ErrKind) (msg : ProductMsg)
| ProductRaw (e : RawError).

Definition set_products (f : list Product -> list Product) (db : DB) : DB :=
  mkDB (users db) (orders db) (f (products db)) (counter db) (statsRuns db).

(** The body of the product routes, for the paths of [Product]; a key
    the body lacks (or holds as [null]) is [None]. [pb_image] is
    [image.fileName]. *)
Record ProductBody := mkProductBody {
  pb_title : option string;
  pb_category : option string;
  pb_price : option Z;
  pb_image : option string
}.

(** The validators of the product schema on a title that is set. *)
Definition titleInvalid (title : string) : bool :=
  (String.length title <? 2)%nat || (30 <? String.length title)%nat.

(** The schema validators on a new product document. *)
Definition validateProduct (b : ProductBody) : list string :=
  (match pb_title b with
   | Some t => if titleInvalid t then ["title"] else []
   | None => ["title"]
   end)
  ++ (match pb_image b with
      | Some f => if decide (f = "") then ["image.fileName"] else []
      | None => ["image.fileName"]
      end)
  ++ (match pb_category b with
      | Some c => if decide (c = "") then ["category"] else []
      | None => ["category"]
      end).

(** [createProduct]: [Product.create]; [newId] is the id the driver
    draws. Every duplicate-key error is answered as the title conflict.
    The move of the image file is started and not awaited; it does not
    reach the store. *)
Definition createProduct (body : ProductBody) (newId : ObjectId) (db : DB)
  : (ProductError + Product) * DB :=
  match validateProduct body with
  | _ :: _ as paths =>
      (inl (ProductHttpError BadRequestError (MsgProductValidation paths)), db)
  | [] =>
      let product :=
        mkProduct newId (default "" (pb_title body)) (default "" (pb_category body))
                  (pb_price body) in
      if bool_decide (p_title product ∈ (p_title <$> products db))
         || bool_decide (newId ∈ (p_id <$> products db))
      then (inl (ProductHttpError ConflictError MsgTitleTaken), db)
      else (inr product, set_products (fun ps => ps ++ [product]) db)
  end.

(** The update validators ([runValidators: true]) on the paths the
    body sets. *)
Definition validateProductUpdate (b : ProductBody) : list string :=
  (match pb_title b with
   | Some t => if titleInvalid t then ["title"] else []
   | None => []
   end)
  ++ (match pb_category b with
      | Some c => if decide (c = "") then ["category"] else []
      | None => []
      end).

(** [price: req.body.price ? req.body.price : null]. *)
Definition updatedPrice (b : ProductBody) : option Z :=
  match pb_price b with
  | Some p => if (p =? 0)%Z then None else Some p
  | None => None
  end.

Definition applyProductUpdate (b : ProductBody) (p : Product) : Product :=
  mkProduct (p_id p) (default (p_title p) (pb_title b))
            (default (p_category p) (pb_category b)) (updatedPrice b).

(** [updateProduct]: [Product.findByIdAndUpdate(productId, {$set: ...},
    {runValidators: true, new: true})]; [productId] is the parameter
    cast to an id. *)
Definition updateProduct (productId : option ObjectId) (body : ProductBody) (db : DB)
  : (ProductError + Product) * DB :=
  match productId with
  | None => (inl (ProductHttpError BadRequestError MsgProductIdInvalid), db)
  | Some id =>
      match validateProductUpdate body with
      | _ :: _ as paths =>
          (inl (ProductHttpError BadRequestError (MsgProductValidation paths)), db)
      | [] =>
          match findProduct (products db) id with
          | None => (inl (ProductHttpError NotFoundError MsgNoProduct), db)
          | Some p =>
              let p' := applyProductUpdate body p in
              if existsb
                   (fun q => negb (bool_decide (p_id q = id))
                             && bool_decide (p_title q = p_title p'))
                   (products db)
              then (inl (ProductHttpError ConflictError MsgTitleTaken), db)
              else
                (inr p',
                 set_products
                   (updateFirst (fun q => bool_decide (p_id q = id)) (applyProductUpdate body))
                   db)
          end
      end
  end.

(** [deleteProduct]: [Product.findByIdAndDelete(productId)]. *)
Definition deleteProduct (productId : option ObjectId) (db : DB)
  : (ProductError + Product) * DB :=
  match productId with
  | None => (inl (ProductHttpError BadRequestError MsgProductIdInvalid), db)
  | Some id =>
      match findProduct (products db) id with
      | None => (inl (ProductHttpError NotFoundError MsgNoProduct), db)
      | Some p =>
          (inr p, set_products (removeFirst (fun q => bool_decide (p_id q = id))) db)
      end
  end.

(** The catalog under its unique indexes: no two products share an id
    or a title. *)
Definition catalogOk (db : DB) : Prop :=
  NoDup (p_id <$> products db) /\ NoDup (p_title <$> products db).

(** ** middlewares/validations.ts: phoneRegExp *)

(** The patterns the phone pattern is built from. [ReNone], the pattern
    that matches nothing, is no source syntax; the matcher needs it. *)
Inductive RegExp :=
| ReNone
| ReEmpty
| ReClass (test : ascii -> bool)
| ReSeq (r1 r2 : RegExp)
| ReAlt (r1 r2 : RegExp)
| ReStar (r : RegExp).

(** [r?] and [r+]. *)
Definition ReOpt (r : RegExp) : RegExp := ReAlt r ReEmpty.
Definition RePlus (r : RegExp) : RegExp := ReSeq r (ReStar r).

(** The strings a pattern matches from its first to its last character. *)
Inductive Matches : RegExp -> list ascii -> Prop :=
| MatchEmpty : Matches ReEmpty []
| MatchClass test c : test c = true -> Matches (ReClass test) [c]
| MatchSeq r1 r2 s1 s2 : Matches r1 s1 -> Matches r2 s2 -> Matches (ReSeq r1 r2) (s1 ++ s2)
| MatchAltL r1 r2 s : Matches r1 s -> Matches (ReAlt r1 r2) s
| MatchAltR r1 r2 s : Matches r2 s -> Matches (ReAlt r1 r2) s
| MatchStarNil r : Matches (ReStar r) []
| MatchStarCons r s1 s2 :
    Matches r s1 -> Matches (ReStar r) s2 -> Matches (ReStar r) (s1 ++ s2).

(** Whether a pattern matches the empty string. *)
Fixpoint nullable (r : RegExp) : bool :=
  match r with
  | ReNone => false
  | ReEmpty => true
  | ReClass _ => false
  | ReSeq r1 r2 => nullable r1 && nullable r2
  | ReAlt r1 r2 => nullable r1 || nullable r2
  | ReStar _ => true
  end.

(** The pattern for what may follow the character [c]. *)
Fixpoint derive (c : ascii) (r : RegExp) : RegExp :=
  match r with
  | ReNone => ReNone
  | ReEmpty => ReNone
  | ReClass test => if test c then ReEmpty else ReNone
  | ReSeq r1 r2 =>
      if nullable r1 then ReAlt (ReSeq (derive c r1) r2) (derive c r2)
      else ReSeq (derive c r1) r2
  | ReAlt r1 r2 => ReAlt (derive c r1) (derive c r2)
  | ReStar r1 => ReSeq (derive c r1) (ReStar r1)
  end.

(** [/^r$/.test(s)]: the whole string matches. *)
Definition regExp_test (r : RegExp) (s : string) : bool :=
  nullable (fold_left (fun r c => derive c r) (list_ascii_of_string s) r).

(** [\d], and [\s] on the characters below 128. *)
Definition isDigit (c : ascii) : bool :=
  (48 <=? nat_of_ascii c)%nat && (nat_of_ascii c <=? 57)%nat.

Definition isWhiteSpace (c : ascii) : bool :=
  ((9 <=? nat_of_ascii c)%nat && (nat_of_ascii c <=? 13)%nat)
  || (nat_of_ascii c =? 32)%nat.

Definition ReChar (c : ascii) : RegExp := ReClass (Ascii.eqb c).

(** [/^(\+\d+)?(?:\s|-?|\(?\d+\)?)+$/] *)
Definition phoneRegExp : RegExp :=
  ReSeq
    (ReOpt (ReSeq (ReChar "+") (RePlus (ReClass isDigit))))
    (RePlus
       (ReAlt (ReClass isWhiteSpace)
          (ReAlt (ReOpt (ReChar "-"))
             (ReSeq (ReOpt (ReChar "("))
                (ReSeq (RePlus (ReClass isDigit)) (ReOpt (ReChar ")"))))))).

(** The characters the pattern names. *)
Definition phoneChar (c : ascii) : bool :=
  isDigit c || isWhiteSpace c || contains c "+-()".

(** The characters of a match satisfy what every class of the pattern
    implies. *)
Fixpoint classesWithin (P : ascii -> Prop) (r : RegExp) : Prop :=
  match r with
  | ReNone | ReEmpty => True
  | ReClass test => forall c, test c = true -> P c
  | ReSeq r1 r2 | ReAlt r1 r2 => classesWithin P r1 /\ classesWithin P r2
  | ReStar r1 => classesWithin P r1
  end.

(** * Properties *)

(** ** Guards (middlewares/validations.ts) *)

Lemma hasAccess_true (roles held : list Role) :
  existsb (fun role => bool_decide (role ∈ held)) roles = true
  <-> exists r, r ∈ roles /\ r ∈ held.
Proof.
  rewrite existsb_exists. split.
  - intros (r & Hin & Hb). exists r. split.
    + by apply list_elem_of_In.
    + by apply bool_decide_eq_true in Hb.
  - intros (r & Hin & Hheld). exists r. split.
    + by apply list_elem_of_In.
    + by apply bool_decide_eq_true.
Qed.

Lemma hasAccess_false (roles held : list Role) :
  existsb (fun role => bool_decide (role ∈ held)) roles = false
  <-> forall r, r ∈ roles -> r ∉ held.
Proof.
  rewrite <- Bool.not_true_iff_false, hasAccess_true. split.
  - intros Hno r Hr Hheld. apply Hno. eauto.
  - intros Hall (r & Hr & Hheld). by apply (Hall r).
Qed.

(** C7. The role guard fails with Unauthorized when the request carries
    no authenticated user, with Forbidden when the user holds none of the
    required roles, and lets the request through when the user holds at
    least one of them; a customer is refused on an admin-only route and an
    admin is let through. *)
Theorem roleGuard_outcomes (roles : list Role) :
  roleGuardMiddleware roles None
    = Failed (HttpError UnauthorizedError MsgAuthRequired)
  /\ (forall uid user,
        (forall r, r ∈ roles -> r ∉ u_roles user) ->
        roleGuardMiddleware roles (Some (uid, user))
          = Failed (HttpError ForbiddenError MsgAccessDenied))
  /\ (forall uid user r,
        r ∈ roles -> r ∈ u_roles user ->
        roleGuardMiddleware roles (Some (uid, user)) = Done tt)
  /\ (forall uid user,
        u_roles user = [Customer] ->
        roleGuardMiddleware [Admin] (Some (uid, user))
          = Failed (HttpError ForbiddenError MsgAccessDenied))
  /\ (forall uid user,
        u_roles user = [Admin] ->
        roleGuardMiddleware [Admin] (Some (uid, user)) = Done tt).
Proof.
  split; [reflexivity|]. split; [|split; [|split]].
  - intros uid user Hnone. unfold roleGuardMiddleware.
    apply hasAccess_false in Hnone. by rewrite Hnone.
  - intros uid user r Hr Hheld. unfold roleGuardMiddleware.
    assert (Hacc : existsb (fun role => bool_decide (role ∈ u_roles user)) roles = true)
      by (apply hasAccess_true; eauto).
    by rewrite Hacc.
  - intros uid user Hroles. unfold roleGuardMiddleware. by rewrite Hroles.
  - intros uid user Hroles. unfold roleGuardMiddleware. by rewrite Hroles.
Qed.

(** ** The session middleware (middlewares/validations.ts) *)

Lemma append_empty_r (s : string) : s +:+ "" = s.
Proof.
  induction s as [|a s IH]; [reflexivity|].
  change (String a s +:+ "") with (String a (s +:+ "")). by rewrite IH.
Qed.

Lemma append_snoc_assoc (cur s : string) (c : ascii) :
  (cur +:+ String c "") +:+ s = cur +:+ String c s.
Proof.
  induction cur as [|a cur IH]; [reflexivity|].
  change (String a ((cur +:+ String c "") +:+ s) = String a (cur +:+ String c s)).
  by rewrite IH.
Qed.

Lemma split_go_no_sep (sep : ascii) (cur s : string) :
  contains sep s = false -> split_go sep cur s = [cur +:+ s].
Proof.
  revert cur. induction s as [|c s IH]; intros cur Hno; simpl.
  - by rewrite append_empty_r.
  - unfold contains in Hno. simpl in Hno. apply orb_false_iff in Hno as [Hc Hs].
    rewrite Ascii.eqb_sym, Hc. rewrite (IH _ Hs). by rewrite append_snoc_assoc.
Qed.

(** The header [Bearer <token>] of a token without blanks. *)
Lemma split_Bearer (aTkn : string) :
  contains " " aTkn = false ->
  startsWith "Bearer " ("Bearer " +:+ aTkn) = true
  /\ split " " ("Bearer " +:+ aTkn) !! 1%nat = Some aTkn.
Proof.
  intros Hno.
  change ("Bearer " +:+ aTkn)
    with (String "B" (String "e" (String "a" (String "r" (String "e" (String "r"
           (String " " aTkn))))))).
  split.
  - unfold startsWith. simpl. by destruct aTkn.
  - unfold split. simpl. by rewrite (split_go_no_sep _ "" aTkn Hno).
Qed.

Section Facts.
Context `{Platform}.

(** C10. A request whose Bearer token verifies and whose subject is the
    id of no stored user is answered by the session middleware with
    Forbidden. *)
Theorem auth_unknown_subject_forbidden
    (header aTkn : string) (now : Z) (db : DB) (payload : JwtPayload) (uid : ObjectId) :
  startsWith "Bearer " header = true ->
  split " "%char header !! 1%nat = Some aTkn ->
  jwt_verify aTkn ACCESS_TOKEN_secret now = Verified payload ->
  oid_cast (jwt_sub payload) = Some uid ->
  users db !! uid = None ->
  auth (Some header) now db = Failed (HttpError ForbiddenError MsgNoAccess).
Proof.
  intros Hpre Htok Hver Hcast Hnone. unfold auth.
  rewrite Hpre, Htok, Hver, Hcast, Hnone. reflexivity.
Qed.

(** The same for the header [Bearer <token>] itself. *)
Lemma auth_bearer_unknown_subject
    (aTkn : string) (now : Z) (db : DB) (payload : JwtPayload) (uid : ObjectId) :
  contains " " aTkn = false ->
  jwt_verify aTkn ACCESS_TOKEN_secret now = Verified payload ->
  oid_cast (jwt_sub payload) = Some uid ->
  users db !! uid = None ->
  auth (Some ("Bearer " +:+ aTkn)) now db = Failed (HttpError ForbiddenError MsgNoAccess).
Proof.
  intros Hno. destruct (split_Bearer aTkn Hno) as [Hpre Htok].
  unfold auth. rewrite Hpre, Htok. simpl.
  intros -> -> ->. reflexivity.
Qed.

(** The other outcomes of the middleware, for the same header shape. *)
Lemma auth_known_subject
    (header aTkn : string) (now : Z) (db : DB) (payload : JwtPayload)
    (uid : ObjectId) (user : User) :
  startsWith "Bearer " header = true ->
  split " "%char header !! 1%nat = Some aTkn ->
  jwt_verify aTkn ACCESS_TOKEN_secret now = Verified payload ->
  oid_cast (jwt_sub payload) = Some uid ->
  users db !! uid = Some user ->
  auth (Some header) now db = Done (uid, user).
Proof.
  intros Hpre Htok Hver Hcast Hsome. unfold auth.
  rewrite Hpre, Htok, Hver, Hcast, Hsome. reflexivity.
Qed.

Lemma auth_unverified (header : string) (now : Z) (db : DB) :
  startsWith "Bearer " header = true ->
  (forall aTkn payload, jwt_verify aTkn ACCESS_TOKEN_secret now <> Verified payload) ->
  exists m, auth (Some header) now db = Failed (HttpError UnauthorizedError m).
Proof.
  intros Hpre Hnever. unfold auth. rewrite Hpre. simpl.
  destruct (split " "%char header !! 1%nat) as [aTkn|]; [|eauto].
  destruct (jwt_verify aTkn ACCESS_TOKEN_secret now) as [p| |] eqn:Hver; [|eauto..].
  by destruct (Hnever aTkn p).
Qed.

End Facts.

(** ** Ownership (middlewares/validations.ts, controllers/order.ts) *)


(** ** Refresh-token rotation (controllers/auth.ts, models/user.ts) *)

Section TokenFacts.
Context `{Platform}.

Lemma save_tokens_lookup (uid : ObjectId) (doc : User) (db : DB) :
  users (save_tokens uid doc db) !! uid = with_tokens (u_tokens doc) <$> users db !! uid.
Proof. unfold save_tokens. simpl. apply lookup_alter_eq. Qed.

(** A token that verifies for a stored user is revoked without any
    look at the stored fingerprints. *)
Lemma deleteRefreshTokenInUser_verified
    (t : string) (now : Z) (db : DB) (p : JwtPayload) (uid : ObjectId) (u : User) :
  t <> "" ->
  jwt_verify t REFRESH_TOKEN_secret now = Verified p ->
  oid_cast (jwt_id p) = Some uid ->
  users db !! uid = Some u ->
  let kept :=
    with_tokens
      (filter (fun x => x <> hmac_sha256_hex REFRESH_TOKEN_secret t) (u_tokens u)) u in
  deleteRefreshTokenInUser (Some t) now db = inr (uid, kept, save_tokens uid kept db).
Proof.
  intros Hne Hver Hcast Hu. unfold deleteRefreshTokenInUser.
  destruct (decide (t = "")) as [->|_]; [done|].
  rewrite Hver, Hcast, Hu. reflexivity.
Qed.

(** The failures of the revocation: only a missing cookie and a missing
    user are Unauthorized. *)
Lemma deleteRefreshTokenInUser_failures (cookie : option string) (now : Z) (db : DB) (e : Error) :
  deleteRefreshTokenInUser cookie now db = inl e ->
  e = HttpError UnauthorizedError MsgRefreshTokenInvalid
  \/ e = HttpError UnauthorizedError MsgUserNotInBase
  \/ e = Raw TokenExpiredError \/ e = Raw JsonWebTokenError \/ e = Raw CastError.
Proof.
  unfold deleteRefreshTokenInUser. intros He.
  destruct cookie as [t|]; [|naive_solver].
  destruct (decide (t = "")); [naive_solver|].
  destruct (jwt_verify t REFRESH_TOKEN_secret now) as [p| |]; [|naive_solver..].
  destruct (oid_cast (jwt_id p)) as [uid|]; [|naive_solver].
  destruct (users db !! uid); [discriminate|naive_solver].
Qed.

(** C1, as amended. After a refresh with a verifying token [t] of a
    stored user, the user's token list is the old list without the
    fingerprint of [t], followed by the fingerprint of the new token: the
    new fingerprint is present, and the old one is absent unless the new
    token has the same fingerprint. The revocation never consults the
    list, so a later refresh or logout that presents [t] again succeeds
    for as long as [t] verifies. *)
Theorem refresh_rotates_fingerprints
    (t : string) (now : Z) (db : DB) (p : JwtPayload) (uid : ObjectId) (u : User) :
  t <> "" ->
  jwt_verify t REFRESH_TOKEN_secret now = Verified p ->
  oid_cast (jwt_id p) = Some uid ->
  users db !! uid = Some u ->
  exists s db1 u1,
    refreshAccessToken (Some t) now db = (Done s, db1)
    /\ users db1 !! uid = Some u1
    /\ u_tokens u1
       = filter (fun x => x <> hmac_sha256_hex REFRESH_TOKEN_secret t) (u_tokens u)
           ++ [hmac_sha256_hex REFRESH_TOKEN_secret (ses_refreshCookie s)]
    /\ hmac_sha256_hex REFRESH_TOKEN_secret (ses_refreshCookie s) ∈ u_tokens u1
    /\ (hmac_sha256_hex REFRESH_TOKEN_secret (ses_refreshCookie s)
          <> hmac_sha256_hex REFRESH_TOKEN_secret t ->
        hmac_sha256_hex REFRESH_TOKEN_secret t ∉ u_tokens u1)
    /\ forall now',
        jwt_verify t REFRESH_TOKEN_secret now' = Verified p ->
        (exists s' db2, refreshAccessToken (Some t) now' db1 = (Done s', db2))
        /\ (exists db2, logout (Some t) now' db1 = (Done tt, db2)).
Proof.
  intros Hne Hver Hcast Hu.
  pose proof (deleteRefreshTokenInUser_verified t now db p uid u Hne Hver Hcast Hu) as Hdel.
  cbv zeta in Hdel. unfold refreshAccessToken at 1. rewrite Hdel.
  unfold generateRefreshToken. cbv beta iota zeta.
  set (old := hmac_sha256_hex REFRESH_TOKEN_secret t).
  set (t' := jwt_sign (oid_toString uid) None REFRESH_TOKEN_secret REFRESH_TOKEN_expiry
                      (oid_toString uid) now).
  set (new := hmac_sha256_hex REFRESH_TOKEN_secret t').
  set (kept := filter (fun x => x <> old) (u_tokens u)).
  eexists _, _, (with_tokens (kept ++ [new]) u).
  split; [reflexivity|].
  match goal with
  | |- users ?d !! uid = _ /\ _ =>
      assert (Hu1 : users d !! uid = Some (with_tokens (kept ++ [new]) u))
        by (rewrite !save_tokens_lookup, Hu; reflexivity)
  end.
  split; [exact Hu1|]. split; [reflexivity|]. split; [|split].
  - simpl. apply elem_of_app. right. by apply list_elem_of_singleton.
  - intros Hdiff Hin. simpl in Hin. apply elem_of_app in Hin as [Hin|Hin].
    + apply list_elem_of_filter in Hin as [Hkeep _]. by apply Hkeep.
    + apply list_elem_of_singleton in Hin. by apply Hdiff.
  - intros now' Hver'.
    pose proof (deleteRefreshTokenInUser_verified t now' _ p uid _ Hne Hver' Hcast Hu1) as Hdel'.
    cbv zeta in Hdel'. split.
    + unfold refreshAccessToken. rewrite Hdel'. unfold generateRefreshToken.
      simpl. eauto.
    + unfold logout. rewrite Hdel'. eauto.
Qed.

(** ** Passwords (models/user.ts, controllers/auth.ts) *)

(** What [register] stores is the bcrypt hash of the body's password. *)
Lemma register_stores_hash
    (email password : string) (name : option string) (newId : ObjectId)
    (salt now : Z) (db db' : DB) (s : Session) :
  register email password name newId salt now db = (Done s, db') ->
  u_password <$> users db' !! newId = Some (bcrypt_hash password BCRYPT_saltRounds salt).
Proof.
  unfold register. intros Hreg.
  destruct (validateUser _); [|discriminate].
  destruct (bool_decide _); [discriminate|].
  destruct (users db !! newId) eqn:Hfree; [discriminate|].
  unfold generateRefreshToken in Hreg. simpl in Hreg.
  injection Hreg as _ <-.
  rewrite save_tokens_lookup. simpl. rewrite lookup_insert_eq. reflexivity.
Qed.

(** [updateCurrentUser] stores the body's password as it comes. *)
Lemma updateCurrentUser_stores_body_password
    (userId : ObjectId) (body : UserPatch) (db : DB) (u : User) (pw : string) :
  users db !! userId = Some u ->
  patch_password body = Some pw ->
  u_password <$> users (snd (updateCurrentUser userId body db)) !! userId = Some pw.
Proof.
  intros Hu Hpw. unfold updateCurrentUser. rewrite Hu. simpl.
  rewrite lookup_insert_eq. simpl. by rewrite Hpw.
Qed.

(** The serialized form of a user has none of the four deleted keys. *)
Lemma toJSON_no_password (uid : ObjectId) (u : User) :
  toJSON uid u !! "password" = None
  /\ toJSON uid u !! "tokens" = None
  /\ toJSON uid u !! "roles" = None
  /\ toJSON uid u !! "_id" = None.
Proof.
  unfold toJSON, toJSON_transform. split; [|split; [|split]].
  - rewrite !lookup_delete_ne by done. apply lookup_delete_eq.
  - rewrite !lookup_delete_ne by done. apply lookup_delete_eq.
  - apply lookup_delete_eq.
  - rewrite lookup_delete_ne by done. apply lookup_delete_eq.
Qed.

(** Two users that differ only in the password serialize alike. *)
Lemma toJSON_password_independent (uid : ObjectId) (u : User) (pw1 pw2 : string) :
  toJSON uid (with_password pw1 u) = toJSON uid (with_password pw2 u).
Proof.
  unfold toJSON, toJSON_transform. do 2 f_equal.
  apply map_eq. intros k.
  rewrite !lookup_delete. unfold toObject. simpl.
  repeat case_decide; try done.
  destruct (u_phone u); simpl; rewrite ?lookup_insert; repeat case_decide; congruence.
Qed.

End TokenFacts.

(** ** The guards, the rotation and the password on the small store *)

Section SessionExamples.
#[local] Existing Instance SimplePlatform.

Lemma auth_unknown_subject_forbidden_witness :
  auth (Some "Bearer access-secret|9|9|99") 6 shop0
    = Failed (HttpError ForbiddenError MsgNoAccess).
Proof.
  apply (auth_unknown_subject_forbidden
           "Bearer access-secret|9|9|99" "access-secret|9|9|99" 6 shop0
           (mkPayload "9" "9") 9%nat); reflexivity.
Defined.

Lemma roleGuard_outcomes_witness :
  roleGuardMiddleware [Admin] (Some (2%nat, bob))
    = Failed (HttpError ForbiddenError MsgAccessDenied)
  /\ roleGuardMiddleware [Admin] (Some (3%nat, root)) = Done tt.
Proof.
  destruct (roleGuard_outcomes [Admin]) as (_ & _ & _ & Hcustomer & Hadmin).
  split; [apply Hcustomer | apply Hadmin]; reflexivity.
Defined.



Lemma refresh_rotates_fingerprints_witness :
  exists s db1 u1,
    refreshAccessToken (Some carolToken) 1001 carolShop = (Done s, db1)
    /\ users db1 !! 4%nat = Some u1
    /\ hmac_sha256_hex REFRESH_TOKEN_secret (ses_refreshCookie s) ∈ u_tokens u1.
Proof.
  destruct (refresh_rotates_fingerprints carolToken 1001 carolShop
              (mkPayload "4" "4") 4%nat
              (mkUser defaultName "carol@shop.io" "$7$secret1"
                      ["hmac:refresh-secret:refresh-secret|4|4|605800"] [Customer]
                      None 0 0 [] None None))
    as (s & db1 & u1 & Hrun & Hu1 & _ & Hnew & _); [done | reflexivity..|].
  exists s, db1, u1. auto.
Defined.

(** C1, the claim as stated fails: Carol's refresh token is stored by
    its fingerprint; after the refresh at time 1001 the fingerprint is
    gone from her list, and yet a refresh and a logout that present the
    old token at time 1002 both succeed. *)
Lemma refresh_replay_accepted :
  u_tokens <$> users carolShop !! 4%nat
    = Some [hmac_sha256_hex REFRESH_TOKEN_secret carolToken]
  /\ u_tokens <$> users (snd (refreshAccessToken (Some carolToken) 1001 carolShop)) !! 4%nat
     = Some ["hmac:refresh-secret:refresh-secret|4|4|605801"]
  /\ (exists s,
        fst (refreshAccessToken (Some carolToken) 1002
               (snd (refreshAccessToken (Some carolToken) 1001 carolShop))) = Done s)
  /\ fst (logout (Some carolToken) 1002
            (snd (refreshAccessToken (Some carolToken) 1001 carolShop))) = Done tt.
Proof.
  split; [reflexivity|]. split; [reflexivity|]. split; [|reflexivity].
  eexists. vm_compute. reflexivity.
Qed.

(** The proviso of the amended C1 is needed: a refresh in the second
    the token was signed in signs the same token again, and the old
    fingerprint stays. *)
Example refresh_same_second_keeps_fingerprint :
  u_tokens <$> users (snd (refreshAccessToken (Some carolToken) 1000 carolShop)) !! 4%nat
    = Some [hmac_sha256_hex REFRESH_TOKEN_secret carolToken].
Proof. reflexivity. Qed.

(** C8, the failing input: a [PATCH /auth/user] whose body carries a
    password. The store then holds the body's text itself, where
    [register] would have stored its bcrypt hash. *)
Theorem patch_user_stores_plaintext_password :
  u_password <$>
    users (handle (PatchUser 1%nat (mkUserPatch None (Some "hunter2!") None None)) 0 shop0)
      !! 1%nat
    = Some "hunter2!"
  /\ (forall salt, bcrypt_hash "hunter2!" BCRYPT_saltRounds salt <> "hunter2!")
  /\ u_password <$>
       users (handle (PostRegister "dave@shop.io" "hunter2!" None 5%nat 9) 0 shop0) !! 5%nat
     = Some (bcrypt_hash "hunter2!" BCRYPT_saltRounds 9).
Proof.
  split; [reflexivity|]. split; [|reflexivity].
  intros salt. simpl. unfold simple_hash. discriminate.
Qed.

End SessionExamples.

(** ** Order creation (controllers/order.ts) *)

Lemma fold_left_add_sumZ {A} (f : A -> Z) (l : list A) (a : Z) :
  fold_left (fun acc c => acc + f c) l a = a + sumZ (f <$> l).
Proof.
  unfold sumZ. revert a. induction l as [|x l IH]; intros a.
  - simpl. lia.
  - rewrite fmap_cons. cbn [fold_left foldr]. rewrite IH. lia.
Qed.

Lemma sumZ_default_omap (basket : list Product) :
  sumZ ((fun c => default 0 (p_price c)) <$> basket) = sumZ (omap p_price basket).
Proof.
  unfold sumZ. induction basket as [|c basket IH]; [reflexivity|].
  rewrite fmap_cons. cbn [foldr]. rewrite IH. simpl.
  destruct (p_price c); reflexivity.
Qed.

(** The reduce of the handler is the sum of the non-null prices. *)
Lemma totalBasket_sumZ (basket : list Product) :
  totalBasket basket = sumZ (omap p_price basket).
Proof.
  unfold totalBasket. rewrite fold_left_add_sumZ, sumZ_default_omap. lia.
Qed.

Lemma resolvedPrices_omap (ps : list Product) (items : list ObjectId) :
  resolvedPrices ps items = omap p_price (omap (findProduct ps) items).
Proof.
  unfold resolvedPrices. induction items as [|id items IH]; [reflexivity|].
  cbn [omap list_omap]. rewrite IH.
  destruct (findProduct ps id) as [p|]; cbn [mbind option_bind omap list_omap];
    [|reflexivity].
  destruct (p_price p); reflexivity.
Qed.

(** A basket that fills holds the products of the items, in order, and
    every item is known and for sale. *)
Lemma fillBasket_inr (ps : list Product) (items : list ObjectId) (basket b : list Product) :
  fillBasket ps items basket = inr b ->
  b = basket ++ omap (findProduct ps) items
  /\ forall id, id ∈ items -> ~ unknownItem ps id /\ ~ nullPriceItem ps id.
Proof.
  revert basket. induction items as [|id items IH]; intros basket Hfill; simpl in Hfill.
  - injection Hfill as <-. split; [by rewrite app_nil_r|].
    intros id Hin. by apply elem_of_nil in Hin.
  - destruct (findProduct ps id) as [p|] eqn:Hfind; [|discriminate].
    destruct (p_price p) as [price|] eqn:Hprice; [|discriminate].
    apply IH in Hfill as [-> Hrest]. split.
    + simpl. rewrite Hfind. by rewrite <- app_assoc.
    + intros id' Hin. apply elem_of_cons in Hin as [->|Hin]; [|by apply Hrest].
      unfold unknownItem, nullPriceItem. split; [congruence|].
      intros (p' & Hp' & Hnull). congruence.
Qed.

(** A basket that does not fill names an item that is unknown or not
    for sale, in a BadRequest. *)
Lemma fillBasket_inl (ps : list Product) (items : list ObjectId) (basket : list Product)
    (e : Error) :
  fillBasket ps items basket = inl e ->
  exists id, id ∈ items
    /\ ((unknownItem ps id /\ e = HttpError BadRequestError (MsgProductMissing id))
        \/ (nullPriceItem ps id /\ e = HttpError BadRequestError (MsgProductNotForSale id))).
Proof.
  revert basket. induction items as [|id items IH]; intros basket Hfill; simpl in Hfill.
  - discriminate.
  - destruct (findProduct ps id) as [p|] eqn:Hfind.
    + destruct (p_price p) as [price|] eqn:Hprice.
      * apply IH in Hfill as (id' & Hin & Hwhy). exists id'. split; [|exact Hwhy].
        apply elem_of_cons. by right.
      * injection Hfill as <-. exists id. split; [apply elem_of_cons; by left|].
        right. split; [|reflexivity]. unfold nullPriceItem. eauto.
    + injection Hfill as <-. exists id. split; [apply elem_of_cons; by left|].
      left. by split.
Qed.


Lemma insertOrder_None (o : Order) (db db' : DB) :
  insertOrder o db = (None, db') ->
  db' = set_orders (fun os => os ++ [o]) db
  /\ (o_id o ∉ (o_id <$> orders db))
  /\ (o_orderNumber o ∉ (o_orderNumber <$> orders db)).
Proof.
  unfold insertOrder. intros Hins.
  destruct (bool_decide (o_id o ∈ (o_id <$> orders db))) eqn:Hid; [discriminate|].
  destruct (bool_decide (o_orderNumber o ∈ (o_orderNumber <$> orders db))) eqn:Hnum;
    [discriminate|].
  injection Hins as <-.
  apply bool_decide_eq_false in Hid. apply bool_decide_eq_false in Hnum. done.
Qed.


Section OrderFacts.
Context `{Platform}.

(** What a successful [createOrder] did. *)
Lemma createOrder_Done_inv
    (userId : ObjectId) (body : OrderBody) (newId : ObjectId) (now : Z)
    (db db' : DB) (O : Order) :
  createOrder userId body newId now db = (Done O, db') ->
  O = with_orderNumber (default 0 (counter db) + 1) (newOrderDoc userId body newId now)
  /\ db' = updateUserStats_save O
             (set_orders (fun os => os ++ [O])
                (set_counter (Some (default 0 (counter db) + 1)) db))
  /\ (o_id O ∉ (o_id <$> orders db))
  /\ (o_orderNumber O ∉ (o_orderNumber <$> orders db))
  /\ validateOrder (newOrderDoc userId body newId now) = []
  /\ ~ basketRejected (products db) (b_items body) (b_total body).
Proof.
  unfold createOrder. intros Hrun.
  destruct (fillBasket (products db) (b_items body) []) as [e|basket] eqn:Hfill;
    [discriminate|].
  destruct (totalBasket basket =? b_total body)%Z eqn:Htotal; simpl in Hrun;
    [|discriminate].
  unfold Order_save in Hrun.
  destruct (validateOrder (newOrderDoc userId body newId now)) eqn:Hvalid;
    [|discriminate].
  unfold incrementOrderNumber, Counter_increment in Hrun. cbv beta iota zeta in Hrun.
  destruct (insertOrder _ _) as [[e|] db2] eqn:Hins; [discriminate|].
  injection Hrun as <- <-.
  apply insertOrder_None in Hins as (-> & Hid & Hnum).
  split; [reflexivity|]. split; [reflexivity|]. split; [exact Hid|].
  split; [exact Hnum|]. split; [reflexivity|].
  apply fillBasket_inr in Hfill as [-> Hall]. simpl in Htotal.
  apply Z.eqb_eq in Htotal.
  rewrite totalBasket_sumZ, <- resolvedPrices_omap in Htotal.
  intros [(id & Hin & Hunknown)|[(id & Hin & Hnull)|Hsum]].
  - by destruct (Hall id Hin) as [Hknown _].
  - by destruct (Hall id Hin) as [_ Hpriced].
  - by apply Hsum.
Qed.





End OrderFacts.

Section OrderExamples.
#[local] Existing Instance SimplePlatform.


End OrderExamples.

(** ** Statistics (models/user.ts, models/order.ts) *)





Lemma recomputedStats_same_orders (uid : ObjectId) (db db' : DB) :
  orders db' = orders db -> recomputedStats uid db' = recomputedStats uid db.
Proof. intros Hos. unfold recomputedStats. by rewrite Hos. Qed.


Lemma calculateOrderStats_orders (uid : ObjectId) (db : DB) :
  orders (calculateOrderStats uid db) = orders db.
Proof. reflexivity. Qed.



Section StatsFacts.
Context `{Platform}.


End StatsFacts.

Section StatsExamples.
#[local] Existing Instance SimplePlatform.


End StatsExamples.

(** ** Order numbers and the reach of the recomputation *)

Lemma elem_of_updateFirst {A} (P : A -> bool) (f : A -> A) (l : list A) (y : A) :
  y ∈ updateFirst P f l -> exists x, x ∈ l /\ (y = x \/ y = f x).
Proof.
  induction l as [|x l IH]; simpl; intros Hin.
  - by apply elem_of_nil in Hin.
  - destruct (P x).
    + apply elem_of_cons in Hin as [->|Hin].
      * exists x. split; [apply elem_of_cons; by left | by right].
      * exists y. split; [apply elem_of_cons; by right | by left].
    + apply elem_of_cons in Hin as [->|Hin].
      * exists x. split; [apply elem_of_cons; by left | by left].
      * destruct (IH Hin) as (x' & Hx' & Hy). exists x'.
        split; [apply elem_of_cons; by right | exact Hy].
Qed.

Lemma elem_of_removeFirst {A} (P : A -> bool) (l : list A) (y : A) :
  y ∈ removeFirst P l -> y ∈ l.
Proof.
  induction l as [|x l IH]; simpl; intros Hin; [done|].
  destruct (P x).
  - apply elem_of_cons. by right.
  - apply elem_of_cons in Hin as [->|Hin]; apply elem_of_cons; [by left|].
    right. by apply IH.
Qed.

(** The frame of the status update: it touches the order collection
    only. *)
Lemma updateOrder_frame (orderNumber : option Z) (status : string) (db : DB) :
  users (snd (updateOrder orderNumber status db)) = users db
  /\ statsRuns (snd (updateOrder orderNumber status db)) = statsRuns db
  /\ counter (snd (updateOrder orderNumber status db)) = counter db
  /\ (orders (snd (updateOrder orderNumber status db)) = orders db
      \/ exists n,
          orders (snd (updateOrder orderNumber status db))
          = updateFirst (fun o => bool_decide (o_orderNumber o = n)) (with_status status)
                        (orders db)).
Proof.
  unfold updateOrder. destruct orderNumber as [n|]; simpl; [|by auto].
  destruct (bool_decide (status ∈ StatusType_values)); simpl; [|by auto].
  destruct (findOrderByNumber n (orders db)); simpl; [|by auto].
  repeat split; eauto.
Qed.

(** The effect of the deletion. *)
Lemma deleteOrder_cases (id : option ObjectId) (db : DB) :
  (exists e, deleteOrder id db = (Failed e, db))
  \/ exists i O,
      id = Some i
      /\ findOrderById i (orders db) = Some O
      /\ fst (deleteOrder id db) = Done O
      /\ orders (snd (deleteOrder id db))
         = removeFirst (fun o => bool_decide (o_id o = i)) (orders db)
      /\ statsRuns (snd (deleteOrder id db))
         = statsRuns db
           ++ match users db !! o_customer O with Some _ => [o_customer O] | None => [] end
      /\ counter (snd (deleteOrder id db)) = counter db.
Proof.
  unfold deleteOrder. destruct id as [i|]; [|left; eauto].
  destruct (findOrderById i (orders db)) as [O|] eqn:Hfind; [|left; eauto].
  right. exists i, O. split; [reflexivity|]. split; [exact Hfind|]. simpl.
  unfold updateUserStats_delete. simpl.
  destruct (users db !! o_customer O); simpl; by rewrite ?app_nil_r.
Qed.

Section ReachFacts.
Context `{Platform}.

Lemma deleteRefreshTokenInUser_frame
    (cookie : option string) (now : Z) (db db' : DB) (uid : ObjectId) (u : User) :
  deleteRefreshTokenInUser cookie now db = inr (uid, u, db') ->
  orders db' = orders db /\ statsRuns db' = statsRuns db /\ counter db' = counter db.
Proof.
  unfold deleteRefreshTokenInUser. intros Hdel.
  repeat case_match; simplify_eq. done.
Qed.

(** The requests on users leave the orders and the log alone. *)
Lemma user_requests_frame (r : Request) (now : Z) (db : DB) :
  touchesOrders r = false ->
  orders (handle r now db) = orders db
  /\ statsRuns (handle r now db) = statsRuns db
  /\ counter (handle r now db) = counter db.
Proof.
  destruct r; try done; intros _; simpl.
  - unfold register, generateRefreshToken. repeat case_match; simplify_eq; done.
  - unfold login, generateRefreshToken. repeat case_match; simplify_eq; done.
  - unfold updateCustomer, updateCurrentUser. repeat case_match; simplify_eq; done.
  - unfold deleteCustomer. repeat case_match; simplify_eq; done.
  - unfold logout.
    destruct (deleteRefreshTokenInUser cookie now db) as [e|[[uid u] db']] eqn:Hdel;
      [done|].
    by apply deleteRefreshTokenInUser_frame in Hdel.
  - unfold refreshAccessToken, generateRefreshToken.
    destruct (deleteRefreshTokenInUser cookie now db) as [e|[[uid u] db']] eqn:Hdel;
      [done|].
    by apply deleteRefreshTokenInUser_frame in Hdel.
  - unfold updateCurrentUser. by case_match.
Qed.

(** The effect of the creation. *)
Lemma createOrder_cases
    (userId : ObjectId) (body : OrderBody) (newId : ObjectId) (now : Z) (db : DB) :
  (exists e,
      fst (createOrder userId body newId now db) = Failed e
      /\ orders (snd (createOrder userId body newId now db)) = orders db
      /\ users (snd (createOrder userId body newId now db)) = users db
      /\ statsRuns (snd (createOrder userId body newId now db)) = statsRuns db
      /\ (counter (snd (createOrder userId body newId now db)) = counter db
          \/ counter (snd (createOrder userId body newId now db))
             = Some (default 0 (counter db) + 1)))
  \/ exists O db',
      createOrder userId body newId now db = (Done O, db')
      /\ o_id O = newId
      /\ o_orderNumber O = default 0 (counter db) + 1
      /\ counter db' = Some (o_orderNumber O)
      /\ orders db' = orders db ++ [O]
      /\ statsRuns db'
         = statsRuns db ++ match users db !! userId with Some _ => [userId] | None => [] end.
Proof.
  destruct (createOrder userId body newId now db) as [[O|e|e] db'] eqn:Hrun.
  - right. exists O, db'. split; [reflexivity|].
    apply createOrder_Done_inv in Hrun as (-> & -> & _).
    unfold updateUserStats_save. simpl.
    destruct (users db !! userId); simpl; by rewrite ?app_nil_r.
  - left. exists e. split; [reflexivity|]. revert Hrun.
    unfold createOrder, Order_save, incrementOrderNumber, Counter_increment, insertOrder.
    intros Hrun. repeat case_match; simplify_eq; simpl; auto.
  - exfalso. revert Hrun.
    unfold createOrder, Order_save, incrementOrderNumber, Counter_increment, insertOrder.
    intros Hrun. repeat case_match; simplify_eq.
Qed.

(** No request changes the number of a stored order, unless it stores
    a new document under the same id. *)
Lemma handle_keeps_orderNumber (r : Request) (now : Z) (db : DB) (id : ObjectId) (n : Z) :
  (forall o, o ∈ orders db -> o_id o = id -> o_orderNumber o = n) ->
  createdId r <> Some id ->
  forall o, o ∈ orders (handle r now db) -> o_id o = id -> o_orderNumber o = n.
Proof.
  intros Hinv Hnew o Hin Hid.
  destruct (touchesOrders r) eqn:Htouch.
  2:{ rewrite (proj1 (user_requests_frame r now db Htouch)) in Hin. by apply (Hinv o). }
  destruct r as [| | | | | | |userId body newId|orderNumber status|did];
    try discriminate Htouch.
  - simpl in Hin, Hnew.
    destruct (createOrder_cases userId body newId now db)
      as [(e & _ & Hos & _)|(O & db' & Hrun & HidO & _ & _ & Hos & _)].
    + rewrite Hos in Hin. by apply (Hinv o).
    + rewrite Hrun in Hin. simpl in Hin. rewrite Hos in Hin.
      apply elem_of_app in Hin as [Hin|Hin]; [by apply (Hinv o)|].
      apply list_elem_of_singleton in Hin as ->. congruence.
  - simpl in Hin.
    destruct (updateOrder_frame orderNumber status db) as (_ & _ & _ & [Hos|[m Hos]]);
      rewrite Hos in Hin; [by apply (Hinv o)|].
    apply elem_of_updateFirst in Hin as (x & Hx & [->| ->]).
    + by apply (Hinv x).
    + by apply (Hinv x).
  - simpl in Hin.
    destruct (deleteOrder_cases did db) as [[e Hrun]|(i & O & _ & _ & _ & Hos & _)].
    + rewrite Hrun in Hin. by apply (Hinv o).
    + rewrite Hos in Hin. apply elem_of_removeFirst in Hin. by apply (Hinv o).
Qed.

(** C4. The order number is set when the order is first saved, to the
    value the counter then takes; the hook leaves a document that is not
    new as it is; no request changes the number of an order that is
    stored; and over any sequence of requests the number under an id
    stays what it is (ids being drawn fresh, no later creation reuses
    the id). *)
Theorem orderNumber_assigned_once :
  (forall userId body newId now db O db',
      createOrder userId body newId now db = (Done O, db') ->
      o_id O = newId
      /\ o_orderNumber O = default 0 (counter db) + 1
      /\ counter db' = Some (o_orderNumber O)
      /\ O ∈ orders db')
  /\ (forall order db, incrementOrderNumber false order db = (order, db))
  /\ (forall r now db id n,
        (exists o, o ∈ orders db /\ o_id o = id) ->
        (forall o, o ∈ orders db -> o_id o = id -> o_orderNumber o = n) ->
        forall o, o ∈ orders (handle r now db) -> o_id o = id -> o_orderNumber o = n)
  /\ (forall rs db id n,
        (forall o, o ∈ orders db -> o_id o = id -> o_orderNumber o = n) ->
        (forall r t, (r, t) ∈ rs -> createdId r <> Some id) ->
        forall o, o ∈ orders (run rs db) -> o_id o = id -> o_orderNumber o = n).
Proof.
  split; [|split; [|split]].
  - intros userId body newId now db O db' Hrun.
    destruct (createOrder_cases userId body newId now db)
      as [(e & Hfail & _)|(O' & db'' & Hrun' & HidO & Hnum & Hctr & Hos & _)].
    + rewrite Hrun in Hfail. discriminate.
    + rewrite Hrun in Hrun'. injection Hrun' as <- <-.
      repeat split; try done. rewrite Hos. apply elem_of_app. right.
      by apply list_elem_of_singleton.
  - reflexivity.
  - intros r now db id n (o0 & Ho0 & Hid0) Hinv.
    destruct (decide (createdId r = Some id)) as [Hcreates|Hother];
      [|by apply handle_keeps_orderNumber].
    destruct r; try discriminate Hcreates. injection Hcreates as ->. simpl.
    destruct (createOrder_cases userId body id now db)
      as [(e & _ & Hos & _)|(O & db' & Hrun & _)].
    + by rewrite Hos.
    + apply createOrder_Done_inv in Hrun as (-> & _ & Hfresh & _).
      destruct Hfresh. simpl. rewrite <- Hid0. by apply list_elem_of_fmap_2.
  - intros rs. unfold run. induction rs as [|[r t] rs IH]; intros db id n Hinv Hnew.
    + exact Hinv.
    + simpl. apply IH.
      * apply handle_keeps_orderNumber; [exact Hinv|].
        apply (Hnew r t). apply elem_of_cons. by left.
      * intros r' t' Hin. apply (Hnew r' t'). apply elem_of_cons. by right.
Qed.

(** C9. A status update changes no user and runs no recomputation; a
    request runs the recomputation only when it is an order creation or
    an order deletion that succeeds, and then once, for the order's
    customer, provided that user is stored. *)
Theorem stats_recomputation_triggers :
  (forall orderNumber status db,
      users (snd (updateOrder orderNumber status db)) = users db
      /\ statsRuns (snd (updateOrder orderNumber status db)) = statsRuns db)
  /\ (forall r now db,
        statsRuns (handle r now db) <> statsRuns db ->
        (exists userId body newId O db',
            r = PostOrder userId body newId
            /\ createOrder userId body newId now db = (Done O, db'))
        \/ (exists i O db',
              r = DeleteOrder (Some i) /\ deleteOrder (Some i) db = (Done O, db')))
  /\ (forall userId body newId now db O db',
        createOrder userId body newId now db = (Done O, db') ->
        is_Some (users db !! userId) ->
        statsRuns db' = statsRuns db ++ [userId])
  /\ (forall i db O db',
        deleteOrder (Some i) db = (Done O, db') ->
        is_Some (users db !! o_customer O) ->
        statsRuns db' = statsRuns db ++ [o_customer O]).
Proof.
  split; [|split; [|split]].
  - intros orderNumber status db.
    by destruct (updateOrder_frame orderNumber status db) as (? & ? & _).
  - intros r now db Hchanged.
    destruct (touchesOrders r) eqn:Htouch.
    2:{ by destruct Hchanged; apply (user_requests_frame r now db Htouch). }
    destruct r as [| | | | | | |userId body newId|orderNumber status|did];
      try discriminate Htouch.
    + left. simpl in Hchanged.
      destruct (createOrder_cases userId body newId now db)
        as [(e & _ & _ & _ & Hlog & _)|(O & db' & Hrun & _)]; [done|].
      by exists userId, body, newId, O, db'.
    + simpl in Hchanged.
      by destruct (updateOrder_frame orderNumber status db) as (_ & ? & _).
    + right. simpl in Hchanged.
      destruct (deleteOrder_cases did db) as [[e Hrun]|(i & O & -> & _ & Hdone & _)].
      * by rewrite Hrun in Hchanged.
      * exists i, O, (snd (deleteOrder (Some i) db)). split; [reflexivity|].
        rewrite <- Hdone. by destruct (deleteOrder (Some i) db).
  - intros userId body newId now db O db' Hrun [u Hu].
    destruct (createOrder_cases userId body newId now db)
      as [(e & Hfail & _)|(O' & db'' & Hrun' & _ & _ & _ & _ & Hlog)].
    + rewrite Hrun in Hfail. discriminate.
    + rewrite Hrun in Hrun'. injection Hrun' as <- <-. by rewrite Hlog, Hu.
  - intros i db O db' Hrun [u Hu].
    destruct (deleteOrder_cases (Some i) db)
      as [[e Hfail]|(i' & O' & _ & _ & Hdone & _ & Hlog & _)].
    + rewrite Hrun in Hfail. discriminate.
    + rewrite Hrun in Hdone, Hlog. simpl in Hdone, Hlog. injection Hdone as <-.
      by rewrite Hlog, Hu.
Qed.

End ReachFacts.

(** ** The store invariant *)

Lemma fmap_updateFirst {A B} (g : A -> B) (P : A -> bool) (f : A -> A) (l : list A) :
  (forall x, g (f x) = g x) -> g <$> updateFirst P f l = g <$> l.
Proof.
  intros Hg. induction l as [|x l IH]; [reflexivity|].
  simpl. destruct (P x); simpl; f_equal; auto.
Qed.

Lemma fmap_removeFirst_sublist {A B} (g : A -> B) (P : A -> bool) (l : list A) :
  (g <$> removeFirst P l) `sublist_of` (g <$> l).
Proof.
  induction l as [|x l IH]; [constructor|].
  simpl. destruct (P x); simpl.
  - by apply sublist_cons.
  - by apply sublist_skip.
Qed.

Section InvariantFacts.
Context `{Platform}.

(** Every request keeps order ids and order numbers pairwise distinct
    and the numbers within the counter. *)
Lemma handle_preserves_storeOk (r : Request) (now : Z) (db : DB) :
  storeOk db -> storeOk (handle r now db).
Proof.
  intros (Hids & Hnums & Hle).
  destruct (touchesOrders r) eqn:Htouch.
  2:{ destruct (user_requests_frame r now db Htouch) as (Hos & _ & Hctr).
      unfold storeOk. by rewrite Hos, Hctr. }
  destruct r as [| | | | | | |userId body newId|orderNumber status|did];
    try discriminate Htouch.
  - simpl.
    destruct (createOrder_cases userId body newId now db)
      as [(e & _ & Hos & _ & _ & Hctr)|(O & db' & Hrun & _ & Hnum & Hctr & Hos & _)].
    + unfold storeOk. rewrite Hos. split; [done|]. split; [done|].
      intros o Ho. specialize (Hle o Ho). destruct Hctr as [-> | ->]; simpl; lia.
    + pose proof Hrun as Hinv.
      apply createOrder_Done_inv in Hinv as (_ & _ & HidO & HnumO & _).
      rewrite Hrun. simpl. unfold storeOk. rewrite Hos, Hctr, !fmap_app. simpl.
      split; [|split].
      * apply NoDup_app. split; [done|]. split; [|apply NoDup_singleton].
        intros x Hx Hx'. apply list_elem_of_singleton in Hx'. by subst.
      * apply NoDup_app. split; [done|]. split; [|apply NoDup_singleton].
        intros x Hx Hx'. apply list_elem_of_singleton in Hx'. by subst.
      * intros o Ho. apply elem_of_app in Ho as [Ho|Ho].
        -- specialize (Hle o Ho). lia.
        -- apply list_elem_of_singleton in Ho as ->. lia.
  - simpl.
    destruct (updateOrder_frame orderNumber status db) as (_ & _ & Hctr & [Hos|[m Hos]]);
      unfold storeOk; rewrite Hos, Hctr; [done|].
    rewrite !fmap_updateFirst by done. split; [done|]. split; [done|].
    intros o Ho. apply elem_of_updateFirst in Ho as (x & Hx & [->| ->]);
      exact (Hle x Hx).
  - simpl.
    destruct (deleteOrder_cases did db)
      as [[e Hrun]|(i & O & _ & _ & _ & Hos & _ & Hctr)].
    + by rewrite Hrun.
    + unfold storeOk. rewrite Hos, Hctr. split; [|split].
      * eapply sublist_NoDup; [exact Hids|apply fmap_removeFirst_sublist].
      * eapply sublist_NoDup; [exact Hnums|apply fmap_removeFirst_sublist].
      * intros o Ho. apply Hle. by apply elem_of_removeFirst in Ho.
Qed.

(** In every store reached from one without orders, no two orders
    share an id or a number: requests served one after the other never
    receive the same order number. *)
Lemma run_storeOk (rs : list (Request * Z)) (db : DB) :
  storeOk db -> storeOk (run rs db).
Proof.
  unfold run. revert db. induction rs as [|[r t] rs IH]; intros db Hok; [exact Hok|].
  simpl. apply IH. by apply handle_preserves_storeOk.
Qed.

Lemma storeOk_no_orders (db : DB) : orders db = [] -> storeOk db.
Proof.
  intros Hnone. unfold storeOk. rewrite Hnone. split; [constructor|].
  split; [constructor|]. intros o Ho. by apply elem_of_nil in Ho.
Qed.

(** Recomputing twice in a row gives the same statistics as once. *)
Lemma calculateOrderStats_idempotent (uid : ObjectId) (db : DB) :
  users (calculateOrderStats uid (calculateOrderStats uid db))
  = users (calculateOrderStats uid db).
Proof.
  unfold calculateOrderStats at 1. simpl users at 1.
  rewrite (recomputedStats_same_orders uid db (calculateOrderStats uid db))
    by reflexivity.
  unfold calculateOrderStats. simpl. rewrite alter_alter_eq.
  apply alter_ext. intros u _. by destruct u.
Qed.

End InvariantFacts.

Section ReachExamples.
#[local] Existing Instance SimplePlatform.

Lemma orderNumber_assigned_once_witness :
  o_orderNumber aliceOrder = 1
  /\ forall o,
      o ∈ orders (run [(PatchOrder (Some 1) "delivering", 60);
                       (PostOrder 2%nat (basketBody [10%nat] 10) 101%nat, 61);
                       (PatchOrder (Some 1) "completed", 62)] shop1) ->
      o_id o = 100%nat -> o_orderNumber o = 1.
Proof.
  destruct orderNumber_assigned_once as (Hfirst & _ & _ & Hlater).
  split.
  - destruct (Hfirst 1%nat (basketBody [10%nat; 11%nat] 30) 100%nat 50 shop0
                aliceOrder shop1) as (_ & Hnum & _); [reflexivity|exact Hnum].
  - apply Hlater.
    + intros o Ho _. vm_compute in Ho. apply list_elem_of_singleton in Ho. by subst.
    + intros r t Hin. repeat (apply elem_of_cons in Hin as [Hin|Hin]; [by simplify_eq|]).
      by apply elem_of_nil in Hin.
Defined.

Lemma stats_recomputation_triggers_witness :
  users (snd (updateOrder (Some 1) "delivering" shop1)) = users shop1
  /\ statsRuns (snd (updateOrder (Some 1) "delivering" shop1)) = [1%nat]
  /\ statsRuns shop1 = [1%nat]
  /\ statsRuns (snd (deleteOrder (Some 100%nat) shop1)) = [1%nat; 1%nat].
Proof.
  destruct stats_recomputation_triggers as (Hupdate & _ & Hcreate & Hdelete).
  destruct (Hupdate (Some 1) "delivering" shop1) as [Husers Hlog].
  split; [exact Husers|]. split; [exact Hlog|]. split.
  - apply (Hcreate 1%nat (basketBody [10%nat; 11%nat] 30) 100%nat 50 shop0 aliceOrder shop1);
      [reflexivity | vm_compute; eauto].
  - apply (Hdelete 100%nat shop1 aliceOrder (snd (deleteOrder (Some 100%nat) shop1)));
      [reflexivity | vm_compute; eauto].
Defined.

End ReachExamples.

(** * Further properties *)

(** ** Order numbers and statistics over runs *)


(** The aggregation reads the amounts, the dates and the ids only. *)
Lemma aggregateOrderStats_ext (l l' : list Order) :
  o_totalAmount <$> l = o_totalAmount <$> l' ->
  o_createdAt <$> l = o_createdAt <$> l' ->
  o_id <$> l = o_id <$> l' ->
  aggregateOrderStats l = aggregateOrderStats l'.
Proof.
  intros Hamount Hdate Hid.
  destruct l as [|o l], l' as [|o' l']; try discriminate; [reflexivity|].
  unfold aggregateOrderStats. f_equal. f_equal.
  - by rewrite !fold_left_add_sumZ, Hamount.
  - f_equal. by rewrite <- (length_fmap o_id (o :: l)), Hid, length_fmap.
  - rewrite !fmap_cons in Hdate. injection Hdate as -> ->. reflexivity.
  - by rewrite <- !fmap_last, Hid.
Qed.

Lemma ordersOfCustomer_updateFirst {B} (g : Order -> B) (uid : ObjectId)
    (P : Order -> bool) (f : Order -> Order) (l : list Order) :
  (forall x, g (f x) = g x) ->
  (forall x, o_customer (f x) = o_customer x) ->
  g <$> ordersOfCustomer uid (updateFirst P f l) = g <$> ordersOfCustomer uid l.
Proof.
  intros Hg Hc. unfold ordersOfCustomer.
  induction l as [|x l IH]; [reflexivity|]. simpl. destruct (P x).
  - rewrite !filter_cons, Hc. destruct (decide (o_customer x = uid)); [|reflexivity].
    by rewrite !fmap_cons, Hg.
  - rewrite !filter_cons. destruct (decide (o_customer x = uid)); [|exact IH].
    by rewrite !fmap_cons, IH.
Qed.

Section RunFacts.
Context `{Platform}.

Lemma handle_keeps_numbers_positive (r : Request) (now : Z) (db : DB) :
  0 <= default 0 (counter db) ->
  (forall o, o ∈ orders db -> 1 <= o_orderNumber o) ->
  0 <= default 0 (counter (handle r now db))
  /\ forall o, o ∈ orders (handle r now db) -> 1 <= o_orderNumber o.
Proof.
  intros Hctr Hpos.
  destruct (touchesOrders r) eqn:Htouch.
  2:{ destruct (user_requests_frame r now db Htouch) as (Hos & _ & Hc).
      by rewrite Hos, Hc. }
  destruct r as [| | | | | | |userId body newId|orderNumber status|did];
    try discriminate Htouch; simpl.
  - destruct (createOrder_cases userId body newId now db)
      as [(e & _ & Hos & _ & _ & Hc)|(O & db' & Hrun & _ & Hnum & Hc & Hos & _)].
    + rewrite Hos. split; [|done]. destruct Hc as [-> | ->]; simpl; lia.
    + rewrite Hrun. simpl. rewrite Hos, Hc. simpl. split; [lia|].
      intros o Ho. apply elem_of_app in Ho as [Ho|Ho]; [by apply Hpos|].
      apply list_elem_of_singleton in Ho as ->. lia.
  - destruct (updateOrder_frame orderNumber status db) as (_ & _ & Hc & [Hos|[m Hos]]);
      rewrite Hos, Hc; [done|]. split; [done|].
    intros o Ho. apply elem_of_updateFirst in Ho as (x & Hx & [->| ->]);
      exact (Hpos x Hx).
  - destruct (deleteOrder_cases did db)
      as [[e Hrun]|(i & O & _ & _ & _ & Hos & _ & Hc)].
    + by rewrite Hrun.
    + rewrite Hos, Hc. split; [done|].
      intros o Ho. apply Hpos. by apply elem_of_removeFirst in Ho.
Qed.

(** X1. In every store reached from one without orders and without a
    counter document, by any sequence of requests served one after the
    other, no two orders share an id or an order number, and every order
    number lies between 1 and the counter. *)
Theorem order_numbers_unique_in_reachable_stores (rs : list (Request * Z)) (db : DB) :
  orders db = [] ->
  counter db = None ->
  NoDup (o_id <$> orders (run rs db))
  /\ NoDup (o_orderNumber <$> orders (run rs db))
  /\ forall o, o ∈ orders (run rs db) ->
       1 <= o_orderNumber o <= default 0 (counter (run rs db)).
Proof.
  intros Hnone Hctr.
  destruct (run_storeOk rs db (storeOk_no_orders db Hnone)) as (Hids & Hnums & Hle).
  split; [exact Hids|]. split; [exact Hnums|].
  assert (Hpos : 0 <= default 0 (counter (run rs db))
                 /\ forall o, o ∈ orders (run rs db) -> 1 <= o_orderNumber o).
  { assert (Hstart : 0 <= default 0 (counter db)
                     /\ forall o, o ∈ orders db -> 1 <= o_orderNumber o).
    { rewrite Hnone, Hctr. split; [done|]. intros o Ho. by apply elem_of_nil in Ho. }
    clear Hids Hnums Hle Hnone Hctr. revert db Hstart. unfold run.
    induction rs as [|[r t] rs IH]; intros db Hstart; [exact Hstart|].
    simpl. apply IH. destruct Hstart. by apply handle_keeps_numbers_positive. }
  intros o Ho. split; [by apply Hpos|by apply Hle].
Qed.


End RunFacts.

(** X3. The statistics count orders whatever their status: a status
    update (to cancelled, say) changes nothing in what a recomputation
    gives for any user. *)
Theorem statistics_ignore_order_status (orderNumber : option Z) (status : string)
    (uid : ObjectId) (db : DB) :
  recomputedStats uid (snd (updateOrder orderNumber status db)) = recomputedStats uid db.
Proof.
  destruct (updateOrder_frame orderNumber status db) as (_ & _ & _ & [Hos|[n Hos]]).
  - by apply recomputedStats_same_orders.
  - unfold recomputedStats. rewrite Hos.
    rewrite (aggregateOrderStats_ext _ (ordersOfCustomer uid (orders db)));
      [reflexivity|by apply ordersOfCustomer_updateFirst..].
Qed.


(** ** The order handlers (controllers/order.ts) *)

Lemma findOrderById_Some (i : ObjectId) (l : list Order) (O : Order) :
  findOrderById i l = Some O -> O ∈ l /\ o_id O = i.
Proof.
  unfold findOrderById. intros Hfind. apply find_some in Hfind as [Hin Hid].
  split; [by apply list_elem_of_In|by apply bool_decide_eq_true in Hid].
Qed.

Lemma findOrderById_None (i : ObjectId) (l : list Order) :
  (forall o, o ∈ l -> o_id o <> i) -> findOrderById i l = None.
Proof.
  intros Hall. destruct (findOrderById i l) as [O|] eqn:Hfind; [|reflexivity].
  apply findOrderById_Some in Hfind as [Hin Hid]. by destruct (Hall O Hin).
Qed.

Lemma findOrderByNumber_Some (n : Z) (l : list Order) (O : Order) :
  findOrderByNumber n l = Some O -> O ∈ l /\ o_orderNumber O = n.
Proof.
  unfold findOrderByNumber. intros Hfind. apply find_some in Hfind as [Hin Hn].
  split; [by apply list_elem_of_In|by apply bool_decide_eq_true in Hn].
Qed.

(** Under distinct ids, removing the first order with an id removes
    every order with that id and no other. *)
Lemma elem_of_removeFirst_id (i : ObjectId) (l : list Order) (o : Order) :
  NoDup (o_id <$> l) ->
  is_Some (findOrderById i l) ->
  o ∈ removeFirst (fun x => bool_decide (o_id x = i)) l <-> o ∈ l /\ o_id o <> i.
Proof.
  induction l as [|x l IH]; intros Hnd [O HO]; [discriminate|].
  rewrite fmap_cons in Hnd. apply NoDup_cons in Hnd as [Hx Hnd].
  unfold findOrderById in HO. simpl in *.
  destruct (bool_decide (o_id x = i)) eqn:Hxi.
  - apply bool_decide_eq_true in Hxi. split.
    + intros Ho. split; [apply elem_of_cons; by right|].
      intros Hoi. apply Hx. rewrite Hxi, <- Hoi. by apply list_elem_of_fmap_2.
    + intros [Ho Hoi]. apply elem_of_cons in Ho as [->|Ho]; [done|exact Ho].
  - apply bool_decide_eq_false in Hxi. rewrite !elem_of_cons, IH by eauto.
    split; [|tauto]. intros [->|[Ho Hoi]]; tauto.
Qed.

Lemma find_updateFirst_same {A} (P : A -> bool) (f : A -> A) (l : list A) :
  (forall x, P (f x) = P x) -> find P (updateFirst P f l) = f <$> find P l.
Proof.
  intros HP. induction l as [|x l IH]; [reflexivity|].
  simpl. destruct (P x) eqn:Hx; simpl.
  - by rewrite HP, Hx.
  - by rewrite Hx.
Qed.

Lemma find_updateFirst_other {A} (P Q : A -> bool) (f : A -> A) (l : list A) :
  (forall x, Q (f x) = Q x) -> (forall x, P x = true -> Q x = false) ->
  find Q (updateFirst P f l) = find Q l.
Proof.
  intros HQ HPQ. induction l as [|x l IH]; [reflexivity|].
  simpl. destruct (P x) eqn:Hx; simpl.
  - by rewrite HQ, (HPQ x Hx).
  - by rewrite IH.
Qed.

Lemma find_updateFirst_fmap {A B} (P Q : A -> bool) (f : A -> A) (g : A -> B) (l : list A) :
  (forall x, Q (f x) = Q x) -> (forall x, g (f x) = g x) ->
  g <$> find Q (updateFirst P f l) = g <$> find Q l.
Proof.
  intros HQ Hg. induction l as [|x l IH]; [reflexivity|].
  simpl. destruct (P x) eqn:Hx; simpl.
  - rewrite HQ. destruct (Q x); simpl; [by rewrite Hg|reflexivity].
  - destruct (Q x); [reflexivity|exact IH].
Qed.

(** X5. [deleteOrder] changes nothing when it fails (an id that does
    not cast, or no such order). When it succeeds in a store with
    distinct order ids, exactly the order with that id is gone, its id is
    no longer in its customer's order list, and deleting it again is
    answered NotFound. *)
Theorem deleteOrder_outcomes (id : option ObjectId) (db : DB) :
  (forall e, fst (deleteOrder id db) = Failed e ->
     snd (deleteOrder id db) = db
     /\ (id = None /\ e = HttpError BadRequestError MsgOrderIdInvalid
         \/ (exists i, id = Some i /\ findOrderById i (orders db) = None)
            /\ e = HttpError NotFoundError MsgOrderAbsent))
  /\ (forall O, fst (deleteOrder id db) = Done O ->
        NoDup (o_id <$> orders db) ->
        id = Some (o_id O)
        /\ O ∈ orders db
        /\ (forall o, o ∈ orders (snd (deleteOrder id db))
                      <-> o ∈ orders db /\ o_id o <> o_id O)
        /\ (forall u, users (snd (deleteOrder id db)) !! o_customer O = Some u ->
                      o_id O ∉ u_orders u)
        /\ fst (deleteOrder id (snd (deleteOrder id db)))
           = Failed (HttpError NotFoundError MsgOrderAbsent)).
Proof.
  split.
  - intros e. unfold deleteOrder. destruct id as [i|]; simpl.
    + destruct (findOrderById i (orders db)) eqn:Hfind; simpl; [discriminate|].
      intros [= <-]. split; [reflexivity|]. right. eauto.
    + intros [= <-]. split; [reflexivity|]. by left.
  - intros O Hdone Hnd. unfold deleteOrder in *. destruct id as [i|]; [|discriminate].
    destruct (findOrderById i (orders db)) as [O'|] eqn:Hfind; [|discriminate].
    simpl in Hdone. injection Hdone as ->.
    destruct (findOrderById_Some _ _ _ Hfind) as [Hin Hid]. subst i.
    assert (Hafter : forall o,
               o ∈ removeFirst (fun x => bool_decide (o_id x = o_id O)) (orders db)
               <-> o ∈ orders db /\ o_id o <> o_id O)
      by (intros o; apply elem_of_removeFirst_id; eauto).
    split; [reflexivity|]. split; [exact Hin|]. simpl. split; [|split].
    + intros o. unfold updateUserStats_delete. simpl.
      destruct (users db !! o_customer O); simpl; apply Hafter.
    + intros u. unfold updateUserStats_delete. simpl.
      destruct (users db !! o_customer O) as [u0|] eqn:Hu0; simpl.
      * rewrite lookup_alter_eq, lookup_alter_eq, Hu0. simpl. intros [= <-]. simpl.
        intros Hmem. apply list_elem_of_filter in Hmem as [Hne _]. by apply Hne.
      * rewrite Hu0. discriminate.
    + assert (Hgone : findOrderById (o_id O)
                        (removeFirst (fun x => bool_decide (o_id x = o_id O)) (orders db))
                      = None).
      { apply findOrderById_None. intros o Ho. by apply Hafter in Ho as [_ Hne]. }
      unfold updateUserStats_delete. simpl.
      destruct (users db !! o_customer O); simpl; by rewrite Hgone.
Qed.

(** X6. [updateOrder] changes nothing when it fails, and refuses a
    status outside the enum before it looks for the order. When it
    succeeds, the first order with the number carries the new status and
    is otherwise as before, and the lookup of every other number gives
    what it gave before. *)
Theorem updateOrder_outcomes (orderNumber : option Z) (status : string) (db : DB) :
  (forall e, fst (updateOrder orderNumber status db) = Failed e ->
     snd (updateOrder orderNumber status db) = db)
  /\ (forall n, orderNumber = Some n -> status ∉ StatusType_values ->
        fst (updateOrder orderNumber status db)
          = Failed (HttpError BadRequestError (MsgValidation ["status"])))
  /\ (forall O, fst (updateOrder orderNumber status db) = Done O ->
        exists n o,
          orderNumber = Some n
          /\ status ∈ StatusType_values
          /\ findOrderByNumber n (orders db) = Some o
          /\ O = with_status status o
          /\ findOrderByNumber n (orders (snd (updateOrder orderNumber status db))) = Some O
          /\ (forall m, m <> n ->
                findOrderByNumber m (orders (snd (updateOrder orderNumber status db)))
                = findOrderByNumber m (orders db))
          /\ (forall i, o_id <$> findOrderById i (orders (snd (updateOrder orderNumber status db)))
                        = o_id <$> findOrderById i (orders db))).
Proof.
  unfold updateOrder. split; [|split].
  - intros e. destruct orderNumber as [n|]; simpl; [|done].
    destruct (bool_decide (status ∈ StatusType_values)); simpl; [|done].
    by destruct (findOrderByNumber n (orders db)).
  - intros n -> Hbad. by rewrite bool_decide_eq_false_2.
  - intros O. destruct orderNumber as [n|]; simpl; [|discriminate].
    destruct (bool_decide (status ∈ StatusType_values)) eqn:Hst; simpl; [|discriminate].
    apply bool_decide_eq_true in Hst.
    destruct (findOrderByNumber n (orders db)) as [o|] eqn:Hfind; simpl; [|discriminate].
    intros [= <-]. exists n, o. split; [reflexivity|]. split; [exact Hst|].
    split; [exact Hfind|]. split; [reflexivity|]. split; [|split].
    + unfold findOrderByNumber in *. rewrite find_updateFirst_same by done.
      by rewrite Hfind.
    + intros m Hm. unfold findOrderByNumber. apply find_updateFirst_other; [done|].
      intros x Hx. apply bool_decide_eq_true in Hx. apply bool_decide_eq_false. lia.
    + intros i. unfold findOrderById. by apply find_updateFirst_fmap.
Qed.

(** The items before the first offender fill the basket. *)
Lemma fillBasket_app_priced (ps : list Product) (pre rest : list ObjectId)
    (basket : list Product) :
  (forall x, x ∈ pre -> is_Some (findProduct ps x ≫= p_price)) ->
  exists basket', fillBasket ps (pre ++ rest) basket = fillBasket ps rest basket'.
Proof.
  revert basket. induction pre as [|x pre IH]; intros basket Hpre; [by exists basket|].
  destruct (Hpre x) as [c Hc]; [apply elem_of_cons; by left|].
  simpl. destruct (findProduct ps x) as [p|]; [|discriminate]. simpl in Hc.
  rewrite Hc. apply IH. intros y Hy. apply Hpre, elem_of_cons. by right.
Qed.

Lemma fillBasket_first_offender (ps : list Product) (items : list ObjectId)
    (basket : list Product) (e : Error) :
  fillBasket ps items basket = inl e ->
  exists pre id post,
    items = pre ++ id :: post
    /\ (forall x, x ∈ pre -> is_Some (findProduct ps x ≫= p_price))
    /\ (unknownItem ps id /\ e = HttpError BadRequestError (MsgProductMissing id)
        \/ nullPriceItem ps id /\ e = HttpError BadRequestError (MsgProductNotForSale id)).
Proof.
  revert basket. induction items as [|x items IH]; intros basket; [discriminate|].
  simpl. destruct (findProduct ps x) as [p|] eqn:Hp.
  - destruct (p_price p) as [c|] eqn:Hc.
    + intros Hrest. destruct (IH _ Hrest) as (pre & id & post & -> & Hpre & Hid).
      exists (x :: pre), id, post. split; [reflexivity|]. split; [|exact Hid].
      intros y Hy. apply elem_of_cons in Hy as [->|Hy]; [|by apply Hpre].
      rewrite Hp. simpl. by rewrite Hc.
    + intros [= <-]. exists [], x, items. split; [reflexivity|].
      split; [intros y Hy; by apply elem_of_nil in Hy|].
      right. split; [|reflexivity]. by exists p.
  - intros [= <-]. exists [], x, items. split; [reflexivity|].
    split; [intros y Hy; by apply elem_of_nil in Hy|]. by left.
Qed.

Section OrderHandlerFacts.
Context `{Platform}.

Lemma Order_save_failures (doc : Order) (db : DB) (e : Error) :
  fst (Order_save doc db) = inl e ->
  (exists paths, e = HttpError BadRequestError (MsgValidation paths)
                 /\ snd (Order_save doc db) = db)
  \/ (exists ix, e = Raw (DuplicateKeyError ix)
                 /\ snd (Order_save doc db)
                    = set_counter (Some (default 0 (counter db) + 1)) db).
Proof.
  unfold Order_save. destruct (validateOrder doc) as [|p paths].
  - cbn [incrementOrderNumber Counter_increment]. cbv beta iota zeta.
    unfold insertOrder.
    destruct (bool_decide (_ ∈ (o_id <$> _))); simpl.
    + intros [= <-]. right. eauto.
    + destruct (bool_decide (_ ∈ (o_orderNumber <$> _))); simpl.
      * intros [= <-]. right. eauto.
      * discriminate.
  - simpl. intros [= <-]. left. eauto.
Qed.

(** X7. The error of a rejected basket names the first item, in the
    order of the request, that is unknown or has no price: the answer is
    product-missing for [id] exactly when [id] is unknown and every item
    before it resolves to a priced product, and not-for-sale for [id]
    exactly when [id] has a null price and every item before it is
    priced. *)
Theorem createOrder_names_first_offender
    (userId : ObjectId) (body : OrderBody) (newId : ObjectId) (now : Z) (db : DB)
    (id : ObjectId) :
  (fst (createOrder userId body newId now db)
     = Failed (HttpError BadRequestError (MsgProductMissing id))
   <-> exists pre post,
         b_items body = pre ++ id :: post
         /\ (forall x, x ∈ pre -> is_Some (findProduct (products db) x ≫= p_price))
         /\ unknownItem (products db) id)
  /\ (fst (createOrder userId body newId now db)
        = Failed (HttpError BadRequestError (MsgProductNotForSale id))
      <-> exists pre post,
            b_items body = pre ++ id :: post
            /\ (forall x, x ∈ pre -> is_Some (findProduct (products db) x ≫= p_price))
            /\ nullPriceItem (products db) id).
Proof.
  assert (Hfwd : forall e,
             fst (createOrder userId body newId now db) = Failed e ->
             (exists i, e = HttpError BadRequestError (MsgProductMissing i))
             \/ (exists i, e = HttpError BadRequestError (MsgProductNotForSale i)) ->
             fillBasket (products db) (b_items body) [] = inl e).
  { intros e. unfold createOrder.
    destruct (fillBasket (products db) (b_items body) []) as [e'|basket]; simpl.
    - by intros [= ->].
    - destruct (negb _); simpl.
      + intros [= <-] [[i Hi]|[i Hi]]; discriminate.
      + destruct (Order_save _ db) as [[e'|O] db'] eqn:Hsave; simpl; [|discriminate].
        intros [= <-] Hmsg.
        destruct (Order_save_failures (newOrderDoc userId body newId now) db e')
          as [(paths & -> & _)|(ix & -> & _)]; [by rewrite Hsave| |];
          destruct Hmsg as [[i Hi]|[i Hi]]; discriminate. }
  assert (Hbwd : forall pre post,
             b_items body = pre ++ id :: post ->
             (forall x, x ∈ pre -> is_Some (findProduct (products db) x ≫= p_price)) ->
             forall e, (forall basket, fillBasket (products db) (id :: post) basket = inl e) ->
             fst (createOrder userId body newId now db) = Failed e).
  { intros pre post Hitems Hpre e He. unfold createOrder. rewrite Hitems.
    destruct (fillBasket_app_priced (products db) pre (id :: post) [] Hpre) as [b' ->].
    by rewrite He. }
  split; split.
  - intros Hfail. apply Hfwd in Hfail; [|left; eauto].
    apply fillBasket_first_offender in Hfail
      as (pre & id' & post & Hitems & Hpre & [[Hid [= ->]]|[Hid [=]]]).
    exists pre, post. eauto.
  - intros (pre & post & Hitems & Hpre & Hid). apply (Hbwd pre post Hitems Hpre).
    intros basket. simpl. unfold unknownItem in Hid. by rewrite Hid.
  - intros Hfail. apply Hfwd in Hfail; [|right; eauto].
    apply fillBasket_first_offender in Hfail
      as (pre & id' & post & Hitems & Hpre & [[Hid [=]]|[Hid [= ->]]]).
    exists pre, post. eauto.
  - intros (pre & post & Hitems & Hpre & (p & Hp & Hprice)).
    apply (Hbwd pre post Hitems Hpre). intros basket. simpl. by rewrite Hp, Hprice.
Qed.


End OrderHandlerFacts.

(** X9. The owner-scoped lookup answers with an order only when the
    order carries the requested number, is stored, and belongs to the
    caller, and then it is the order the admin lookup gives; the owner
    of an order gets it whenever the admin lookup gives it, and every
    failure of the admin lookup is the failure of the owner-scoped one. *)
Theorem getOrderCurrentUserByNumber_sound (userId : ObjectId) (orderNumber : option Z)
    (db : DB) :
  (forall order, getOrderCurrentUserByNumber userId orderNumber db = Done order ->
     o_customer order = userId
     /\ is_Some (users db !! userId)
     /\ order ∈ orders db
     /\ orderNumber = Some (o_orderNumber order)
     /\ getOrderByNumber orderNumber db = Done order)
  /\ (forall order, getOrderByNumber orderNumber db = Done order ->
        is_Some (users db !! o_customer order) ->
        getOrderCurrentUserByNumber (o_customer order) orderNumber db = Done order)
  /\ (forall e, getOrderByNumber orderNumber db = Failed e ->
        getOrderCurrentUserByNumber userId orderNumber db = Failed e).
Proof.
  unfold getOrderCurrentUserByNumber, getOrderByNumber.
  destruct orderNumber as [n|]; [|by repeat split; intros; simplify_eq].
  destruct (findOrderByNumber n (orders db)) as [o|] eqn:Hfind;
    [|by repeat split; intros; simplify_eq].
  destruct (findOrderByNumber_Some _ _ _ Hfind) as [Hin Hn].
  split; [|split].
  - intros order. destruct (users db !! o_customer o) as [u|] eqn:Hu; [|discriminate].
    destruct (bool_decide (o_customer o = userId)) eqn:Hown; simpl; [|discriminate].
    apply bool_decide_eq_true in Hown. intros [= <-].
    rewrite <- Hown, Hu, Hn. eauto 10.
  - intros order [= <-] [u Hu]. rewrite Hu. by rewrite bool_decide_eq_true_2.
  - discriminate.
Qed.

(** X10. [deleteCustomer] removes the user and nothing else: the orders
    of the customer stay in the collection. From then on the admin lookup
    still gives such an order, while the owner-scoped lookup of its
    number fails, for every caller, with the TypeError of reading the
    missing customer, which is no error of the handler's own. *)
Theorem deleteCustomer_leaves_orders (i : ObjectId) (db : DB) (u : User) :
  users db !! i = Some u ->
  fst (deleteCustomer (Some i) db) = Done u
  /\ orders (snd (deleteCustomer (Some i) db)) = orders db
  /\ users (snd (deleteCustomer (Some i) db)) = delete i (users db)
  /\ (forall n order userId,
        findOrderByNumber n (orders db) = Some order -> o_customer order = i ->
        getOrderByNumber (Some n) (snd (deleteCustomer (Some i) db)) = Done order
        /\ getOrderCurrentUserByNumber userId (Some n) (snd (deleteCustomer (Some i) db))
           = Failed (Raw TypeError)).
Proof.
  intros Hu. unfold deleteCustomer. rewrite Hu. simpl.
  split; [reflexivity|]. split; [reflexivity|]. split; [reflexivity|].
  intros n order userId Hfind Hown.
  unfold getOrderByNumber, getOrderCurrentUserByNumber. simpl. rewrite Hfind.
  split; [reflexivity|]. by rewrite Hown, lookup_delete_eq.
Qed.

(** ** Sessions (controllers/auth.ts, models/user.ts) *)

Lemma split_go_sep (sep : ascii) (cur s rest : string) :
  contains sep s = false ->
  split_go sep cur (s +:+ String sep rest) = (cur +:+ s) :: split_go sep "" rest.
Proof.
  revert cur. induction s as [|c s IH]; intros cur Hno.
  - change ("" +:+ String sep rest) with (String sep rest). simpl.
    by rewrite Ascii.eqb_refl, append_empty_r.
  - change (String c s +:+ String sep rest) with (String c (s +:+ String sep rest)).
    unfold contains in Hno. simpl in Hno. apply orb_false_iff in Hno as [Hc Hs].
    simpl. rewrite Ascii.eqb_sym, Hc. rewrite (IH _ Hs). by rewrite append_snoc_assoc.
Qed.

Lemma filter_without_twice (h : string) (l : list string) :
  filter (fun x => x <> h) (filter (fun x => x <> h) l) = filter (fun x => x <> h) l.
Proof.
  induction l as [|x l IH]; [reflexivity|].
  rewrite filter_cons. destruct (decide (x <> h)) as [Hx|Hx]; [|exact IH].
  rewrite filter_cons. rewrite decide_True by exact Hx. by rewrite IH.
Qed.

Section SessionFacts.
Context `{Platform}.

Lemma findUserByCredentials_inr (email password : string) (db : DB)
    (uid : ObjectId) (user : User) :
  findUserByCredentials email password db = inr (uid, user) ->
  users db !! uid = Some user
  /\ u_email user = email
  /\ bcrypt_compare password (u_password user) = true.
Proof.
  unfold findUserByCredentials.
  destruct (find _ (map_to_list (users db))) as [[i u]|] eqn:Hfind; [|discriminate].
  destruct (bcrypt_compare password (u_password u)) eqn:Hpw; [|discriminate].
  intros [= -> ->]. apply find_some in Hfind as [Hin Hmail].
  apply list_elem_of_In, elem_of_map_to_list in Hin.
  apply bool_decide_eq_true in Hmail. done.
Qed.

Lemma findUserByCredentials_inl (email password : string) (db : DB) (e : Error) :
  findUserByCredentials email password db = inl e ->
  e = HttpError UnauthorizedError MsgBadCredentials.
Proof.
  unfold findUserByCredentials.
  destruct (find _ (map_to_list (users db))) as [[i u]|]; [|by intros [= <-]].
  destruct (bcrypt_compare password (u_password u)); [discriminate|by intros [= <-]].
Qed.

(** X11. [login] answers an unknown email and a wrong password with the
    same Unauthorized error and leaves the store as it was. A successful
    login is that of a stored user with the email whose stored hash
    matches the password; it appends the fingerprint of the cookie it
    hands out to that user's tokens and changes no other user and no
    order. *)
Theorem login_outcomes (email password : string) (now : Z) (db : DB) :
  (forall e, fst (login email password now db) = Failed e ->
     e = HttpError UnauthorizedError MsgBadCredentials
     /\ snd (login email password now db) = db)
  /\ (forall e, fst (login email password now db) <> Thrown e)
  /\ (forall s, fst (login email password now db) = Done s ->
        exists u,
          users db !! fst (ses_user s) = Some u
          /\ u_email u = email
          /\ bcrypt_compare password (u_password u) = true
          /\ snd (ses_user s)
             = with_tokens
                 (u_tokens u ++ [hmac_sha256_hex REFRESH_TOKEN_secret (ses_refreshCookie s)]) u
          /\ users (snd (login email password now db)) !! fst (ses_user s)
             = Some (snd (ses_user s))
          /\ (forall j, j <> fst (ses_user s) ->
                users (snd (login email password now db)) !! j = users db !! j)
          /\ orders (snd (login email password now db)) = orders db).
Proof.
  unfold login.
  destruct (findUserByCredentials email password db) as [e'|[uid user]] eqn:Hfind.
  - apply findUserByCredentials_inl in Hfind as ->. simpl.
    split; [by intros e [= <-]|]. split; discriminate.
  - apply findUserByCredentials_inr in Hfind as (Hu & Hmail & Hpw).
    unfold generateRefreshToken. cbv beta iota zeta. simpl.
    split; [discriminate|]. split; [discriminate|].
    intros s [= <-]. simpl. exists user.
    split; [exact Hu|]. split; [exact Hmail|]. split; [exact Hpw|].
    split; [reflexivity|]. split; [|split; [|reflexivity]].
    + by rewrite lookup_alter_eq, Hu.
    + intros j Hj. by rewrite lookup_alter_ne.
Qed.

(** X12. [register] changes nothing when it fails, and fails only with
    the BadRequest of the schema validators or with the email conflict.
    A successful registration takes a free id and an email that no stored
    user has, and stores under that id a customer (and nothing but a
    customer) with the hash of the password and, as the one token, the
    fingerprint of the cookie it hands out; the other users and the
    orders stay. *)
Theorem register_outcomes (email password : string) (name : option string)
    (newId : ObjectId) (salt now : Z) (db : DB) :
  (forall e, fst (register email password name newId salt now db) = Failed e ->
     snd (register email password name newId salt now db) = db
     /\ ((exists paths, e = HttpError BadRequestError (MsgValidation paths))
         \/ e = HttpError ConflictError MsgEmailTaken))
  /\ (forall e, fst (register email password name newId salt now db) <> Thrown e)
  /\ (forall s, fst (register email password name newId salt now db) = Done s ->
        fst (ses_user s) = newId
        /\ users db !! newId = None
        /\ (forall j u, users db !! j = Some u -> u_email u <> email)
        /\ users (snd (register email password name newId salt now db)) !! newId
           = Some (snd (ses_user s))
        /\ (forall j, j <> newId ->
              users (snd (register email password name newId salt now db)) !! j
              = users db !! j)
        /\ orders (snd (register email password name newId salt now db)) = orders db
        /\ snd (ses_user s)
           = mkUser (default defaultName name) email
                    (bcrypt_hash password BCRYPT_saltRounds salt)
                    [hmac_sha256_hex REFRESH_TOKEN_secret (ses_refreshCookie s)]
                    [Customer] None 0 0 [] None None).
Proof.
  unfold register.
  destruct (validateUser _) as [|p paths].
  2:{ simpl. split; [|split; discriminate]. intros e [= <-]. eauto. }
  destruct (bool_decide (map_Exists _ (users db))) eqn:Htaken.
  { simpl. split; [|split; discriminate]. intros e [= <-]. eauto. }
  apply bool_decide_eq_false in Htaken.
  destruct (users db !! newId) eqn:Hfree.
  { simpl. split; [|split; discriminate]. intros e [= <-]. eauto. }
  unfold generateRefreshToken. cbv beta iota zeta. simpl.
  split; [discriminate|]. split; [discriminate|].
  intros s [= <-]. simpl. split; [reflexivity|]. split; [reflexivity|].
  split; [|split; [|split; [|split]]]; try reflexivity.
  - intros j u Hu Hmail. apply Htaken. exists j, u. done.
  - by rewrite lookup_alter_eq, lookup_insert_eq.
  - intros j Hj. by rewrite lookup_alter_ne, lookup_insert_ne.
Qed.

(** X13. [logout] changes nothing when it fails. When it succeeds, the
    cookie verified for a stored user, whose token list afterwards is the
    old one without the fingerprint of the cookie (whether or not the
    fingerprint was in it); no other user and no order changes, and a
    second logout with the same cookie at the same time succeeds again and
    changes nothing. *)
Theorem logout_outcomes (cookie : option string) (now : Z) (db : DB) :
  (forall e, fst (logout cookie now db) = Failed e -> snd (logout cookie now db) = db)
  /\ (forall e, fst (logout cookie now db) <> Thrown e)
  /\ (fst (logout cookie now db) = Done tt ->
        exists t p uid u,
          cookie = Some t
          /\ jwt_verify t REFRESH_TOKEN_secret now = Verified p
          /\ oid_cast (jwt_id p) = Some uid
          /\ users db !! uid = Some u
          /\ users (snd (logout cookie now db)) !! uid
             = Some (with_tokens
                       (filter (fun x => x <> hmac_sha256_hex REFRESH_TOKEN_secret t)
                               (u_tokens u)) u)
          /\ (forall j, j <> uid -> users (snd (logout cookie now db)) !! j = users db !! j)
          /\ orders (snd (logout cookie now db)) = orders db
          /\ logout cookie now (snd (logout cookie now db))
             = (Done tt, snd (logout cookie now db))).
Proof.
  assert (Hlog : logout cookie now db
                 = match deleteRefreshTokenInUser cookie now db with
                   | inl e => (Failed e, db)
                   | inr (_, _, db') => (Done tt, db')
                   end) by reflexivity.
  destruct (deleteRefreshTokenInUser cookie now db) as [e'|[[uid user'] db']] eqn:Hdel;
    rewrite Hlog; clear Hlog.
  { simpl. split; [done|]. split; discriminate. }
  simpl. split; [discriminate|]. split; [discriminate|]. intros _.
  unfold deleteRefreshTokenInUser in Hdel.
  destruct cookie as [t|]; [|discriminate].
  destruct (decide (t = "")) as [|Hne]; [discriminate|].
  destruct (jwt_verify t REFRESH_TOKEN_secret now) as [p| |] eqn:Hver; [|discriminate..].
  destruct (oid_cast (jwt_id p)) as [i|] eqn:Hcast; [|discriminate].
  destruct (users db !! i) as [u|] eqn:Hu; [|discriminate].
  injection Hdel as <- <- <-.
  set (kept := filter (fun x => x <> hmac_sha256_hex REFRESH_TOKEN_secret t) (u_tokens u)).
  assert (Hafter : users (save_tokens i (with_tokens kept u) db) !! i
                   = Some (with_tokens kept u))
    by (rewrite save_tokens_lookup, Hu; reflexivity).
  exists t, p, i, u. split; [reflexivity|]. split; [exact Hver|].
  split; [exact Hcast|]. split; [exact Hu|].
  split; [exact Hafter|]. split; [|split; [reflexivity|]].
  - intros j Hj. unfold save_tokens. simpl. by rewrite lookup_alter_ne.
  - unfold logout.
    rewrite (deleteRefreshTokenInUser_verified t now _ p i _ Hne Hver Hcast Hafter).
    cbv zeta. simpl. f_equal.
    subst kept. rewrite filter_without_twice. unfold save_tokens, set_users. simpl. f_equal.
    apply map_eq. intros j. destruct (decide (j = i)) as [->|Hj].
    + rewrite !lookup_alter_eq. by destruct (users db !! i).
    + by rewrite !lookup_alter_ne.
Qed.

(** X14. The session middleware lets a request through only with a user
    that is stored under the id the verified token names as its subject,
    taken from the header between the first and the second blank. It
    throws only for a header that does not start with the Bearer prefix,
    and every error it passes on is Unauthorized or, for a subject that
    is no stored user, Forbidden. *)
Theorem auth_outcomes (authHeader : option string) (now : Z) (db : DB) :
  (forall uid user, auth authHeader now db = Done (uid, user) ->
     users db !! uid = Some user
     /\ exists header aTkn payload,
          authHeader = Some header
          /\ startsWith "Bearer " header = true
          /\ split " "%char header !! 1%nat = Some aTkn
          /\ jwt_verify aTkn ACCESS_TOKEN_secret now = Verified payload
          /\ oid_cast (jwt_sub payload) = Some uid)
  /\ (forall e, auth authHeader now db = Failed e ->
        e = HttpError UnauthorizedError MsgTokenExpired
        \/ e = HttpError UnauthorizedError MsgAuthRequired
        \/ e = HttpError ForbiddenError MsgNoAccess
           /\ exists header, authHeader = Some header /\ startsWith "Bearer " header = true)
  /\ (forall e, auth authHeader now db = Thrown e ->
        e = HttpError UnauthorizedError MsgBearerInvalid
        /\ (authHeader = None
            \/ exists header, authHeader = Some header
                              /\ startsWith "Bearer " header = false)).
Proof.
  unfold auth. destruct authHeader as [header|].
  2:{ split; [discriminate|]. split; [discriminate|]. intros e [= <-]. eauto. }
  destruct (startsWith "Bearer " header) eqn:Hpre; simpl.
  2:{ split; [discriminate|]. split; [discriminate|]. intros e [= <-]. eauto. }
  destruct (split " "%char header !! 1%nat) as [aTkn|] eqn:Htok.
  2:{ split; [discriminate|]. split; [|discriminate]. intros e [= <-]. eauto. }
  destruct (jwt_verify aTkn ACCESS_TOKEN_secret now) as [payload| |] eqn:Hver.
  2,3: split; [discriminate|]; (split; [|discriminate]); intros e [= <-]; eauto.
  destruct (oid_cast (jwt_sub payload)) as [i|] eqn:Hcast.
  2:{ split; [discriminate|]. split; [|discriminate]. intros e [= <-]. eauto. }
  destruct (users db !! i) as [u|] eqn:Hu.
  - split; [|split; discriminate]. intros uid user [= <- <-]. split; [exact Hu|].
    exists header, aTkn, payload. done.
  - split; [discriminate|]. split; [|discriminate]. intros e [= <-]. eauto 10.
Qed.

(** X15. What follows the second blank of the Authorization header is
    not looked at: a header with more text after the token is treated as
    the header of the token alone. *)
Theorem auth_ignores_text_after_token (aTkn rest : string) (now : Z) (db : DB) :
  contains " " aTkn = false ->
  auth (Some ("Bearer " +:+ aTkn +:+ String " " rest)) now db
  = auth (Some ("Bearer " +:+ aTkn)) now db.
Proof.
  intros Hno. destruct (split_Bearer aTkn Hno) as [Hpre Htok].
  unfold auth. rewrite Hpre, Htok.
  assert (Hpre' : startsWith "Bearer " ("Bearer " +:+ aTkn +:+ String " " rest) = true).
  { change ("Bearer " +:+ aTkn +:+ String " " rest)
      with (String "B" (String "e" (String "a" (String "r" (String "e" (String "r"
             (String " " (aTkn +:+ String " " rest)))))))).
    unfold startsWith. simpl. by destruct (aTkn +:+ String " " rest). }
  assert (Htok' : split " "%char ("Bearer " +:+ aTkn +:+ String " " rest) !! 1%nat
                  = Some aTkn).
  { change ("Bearer " +:+ aTkn +:+ String " " rest)
      with (String "B" (String "e" (String "a" (String "r" (String "e" (String "r"
             (String " " (aTkn +:+ String " " rest)))))))).
    unfold split. simpl. by rewrite (split_go_sep _ "" aTkn rest Hno). }
  by rewrite Hpre', Htok'.
Qed.

(** X16. The handlers behind the session middleware find their user: on
    the store the middleware read, [getCurrentUser] answers with the
    serialized form of the user the middleware loaded, and
    [updateCurrentUser] does not answer NotFound. *)
Theorem authenticated_user_is_found (authHeader : option string) (now : Z) (db : DB)
    (uid : ObjectId) (user : User) :
  auth authHeader now db = Done (uid, user) ->
  getCurrentUser uid db = Done (toJSON uid user)
  /\ forall body, fst (updateCurrentUser uid body db) = Done (applyPatch body user).
Proof.
  intros Hauth.
  assert (Hu : users db !! uid = Some user).
  { unfold auth in Hauth. repeat case_match; simplify_eq. done. }
  unfold getCurrentUser, updateCurrentUser. rewrite Hu. done.
Qed.

End SessionFacts.

(** ** Guards and roles (middlewares/validations.ts, controllers/auth.ts) *)


(** X18. [updateCurrentUser] writes the [roles] of the body as it
    writes any other path: a user whose body names the admin role is
    stored with it, and from then on passes the admin role guard and the
    ownership guard of every resource. *)
Theorem patch_user_grants_admin (userId : ObjectId) (body : UserPatch) (db : DB)
    (u : User) (roles : list Role) :
  users db !! userId = Some u ->
  patch_roles body = Some roles ->
  Admin ∈ roles ->
  exists u',
    fst (updateCurrentUser userId body db) = Done u'
    /\ users (snd (updateCurrentUser userId body db)) !! userId = Some u'
    /\ u_roles u' = roles
    /\ roleGuardMiddleware [Admin] (Some (userId, u')) = Done tt
    /\ forall (T : Type) (findById : ObjectId -> DB -> option T)
              (userProperty : T -> ObjectId) (id : ObjectId) (db' : DB),
         currentUserAccessMiddleware findById userProperty id (Some (userId, u')) db'
         = Done tt.
Proof.
  intros Hu Hroles Hadmin. exists (applyPatch body u).
  unfold updateCurrentUser. rewrite Hu. simpl.
  split; [reflexivity|]. split; [apply lookup_insert_eq|].
  rewrite Hroles. simpl. split; [reflexivity|]. split.
  - unfold roleGuardMiddleware. simpl. by rewrite bool_decide_eq_true_2.
  - intros T findById userProperty id db'. unfold currentUserAccessMiddleware.
    simpl. by rewrite bool_decide_eq_true_2.
Qed.

(** ** The error handler (middlewares/error-handler.ts) *)

Lemma errorHandler_HttpError (statusCode : ErrKind -> Z) (kind : ErrKind) (m : ErrMsg) :
  statusCode kind <> 0 -> statusCode kind <> 500 ->
  errorHandler statusCode (HttpError kind m) = (statusCode kind, ErrorText m).
Proof.
  intros H0 H500. unfold errorHandler. simpl.
  apply Z.eqb_neq in H0. rewrite H0. apply Z.eqb_neq in H500. by rewrite H500.
Qed.

(** X19. The error handler never answers with status 0, sends the fixed
    text exactly when the status is 500, and sends it for every error of
    a library, whose own text never reaches the client; an error of the
    handlers' own classes with another status is sent with its message. *)
Theorem errorHandler_hides_server_errors (statusCode : ErrKind -> Z) (err : Error) :
  fst (errorHandler statusCode err) <> 0
  /\ (fst (errorHandler statusCode err) = 500
      <-> snd (errorHandler statusCode err) = ServerErrorText)
  /\ (forall e, snd (errorHandler statusCode err) <> LibraryText e)
  /\ (forall e, err = Raw e -> errorHandler statusCode err = (500, ServerErrorText))
  /\ (forall kind m, err = HttpError kind m ->
        statusCode kind <> 0 -> statusCode kind <> 500 ->
        errorHandler statusCode err = (statusCode kind, ErrorText m)).
Proof.
  unfold errorHandler. destruct err as [kind m|e]; simpl.
  - destruct (statusCode kind =? 0)%Z eqn:H0;
      [apply Z.eqb_eq in H0|apply Z.eqb_neq in H0]; simpl.
    + split; [lia|]. split; [done|]. split; [done|]. split; [done|].
      intros k m' [= <- <-]. lia.
    + destruct (statusCode kind =? 500)%Z eqn:H500;
        [apply Z.eqb_eq in H500|apply Z.eqb_neq in H500].
      * split; [lia|]. split; [done|]. split; [done|]. split; [done|].
        intros k m' [= <- <-]. lia.
      * split; [lia|]. split; [split; [lia|discriminate]|]. split; [done|].
        split; [done|]. by intros k m' [= <- <-].
  - split; [lia|]. split; [done|]. split; [done|]. split; [done|]. discriminate.
Qed.

Section CookieFacts.
Context `{Platform}.

(** X20. A refresh or a logout whose cookie does not verify (an expired
    or a forged token) fails with the library's error and changes
    nothing; the client is answered with status 500 and the fixed text,
    where a missing cookie is answered with the status and the message
    of the Unauthorized error. *)
Theorem unverified_cookie_is_server_error (statusCode : ErrKind -> Z)
    (t : string) (now : Z) (db : DB) :
  t <> "" ->
  (forall p, jwt_verify t REFRESH_TOKEN_secret now <> Verified p) ->
  (exists e,
      refreshAccessToken (Some t) now db = (Failed (Raw e), db)
      /\ logout (Some t) now db = (Failed (Raw e), db)
      /\ (e = TokenExpiredError \/ e = JsonWebTokenError)
      /\ errorHandler statusCode (Raw e) = (500, ServerErrorText))
  /\ refreshAccessToken None now db
     = (Failed (HttpError UnauthorizedError MsgRefreshTokenInvalid), db)
  /\ (statusCode UnauthorizedError <> 0 -> statusCode UnauthorizedError <> 500 ->
      errorHandler statusCode (HttpError UnauthorizedError MsgRefreshTokenInvalid)
      = (statusCode UnauthorizedError, ErrorText MsgRefreshTokenInvalid)).
Proof.
  intros Hne Hnever. split; [|split; [reflexivity|]].
  - unfold refreshAccessToken, logout, deleteRefreshTokenInUser.
    destruct (decide (t = "")) as [|_]; [done|].
    destruct (jwt_verify t REFRESH_TOKEN_secret now) as [p| |] eqn:Hver.
    + by destruct (Hnever p).
    + exists TokenExpiredError. eauto.
    + exists JsonWebTokenError. eauto.
  - apply errorHandler_HttpError.
Qed.

(** X21. [getCurrentUser] answers NotFound exactly for an id that no
    user is stored under. Its answer for a stored user has no password,
    no tokens, no roles and no [_id]; it names the user by [id] and
    carries the email, the name and, when there is one, the phone. *)
Theorem getCurrentUser_answer (userId : ObjectId) (db : DB) :
  (getCurrentUser userId db = Failed (HttpError NotFoundError MsgUserAbsent)
   <-> users db !! userId = None)
  /\ (forall user, users db !! userId = Some user ->
        exists json,
          getCurrentUser userId db = Done json
          /\ json !! "password" = None /\ json !! "tokens" = None
          /\ json !! "roles" = None /\ json !! "_id" = None
          /\ json !! "id" = Some (JStr (oid_toString userId))
          /\ json !! "email" = Some (JStr (u_email user))
          /\ json !! "name" = Some (JStr (u_name user))
          /\ json !! "phone" = JStr <$> u_phone user).
Proof.
  unfold getCurrentUser. split.
  - destruct (users db !! userId); split; done.
  - intros user ->. exists (toJSON userId user). split; [reflexivity|].
    destruct (toJSON_no_password userId user) as (Hpw & Htok & Hroles & Hid).
    repeat (split; [assumption|]).
    unfold toJSON, toJSON_transform, toObject.
    destruct (u_phone user) as [ph|]; simpl; repeat split;
      rewrite ?lookup_delete_ne by done;
      rewrite ?lookup_insert_ne by done; rewrite ?lookup_insert_eq; reflexivity.
Qed.

End CookieFacts.

(** ** The list of a user's orders (controllers/order.ts) *)

Lemma js_slice_window {A} (skip limit : Z) (l : list A) :
  0 <= skip -> 0 <= limit ->
  js_slice skip (skip + limit) l = take (Z.to_nat limit) (drop (Z.to_nat skip) l).
Proof.
  intros Hs Hn. unfold js_slice.
  destruct (skip <? 0)%Z eqn:H1; [apply Z.ltb_lt in H1; lia|].
  destruct (skip + limit <? 0)%Z eqn:H2; [apply Z.ltb_lt in H2; lia|].
  destruct (decide (Z.of_nat (length l) <= skip)) as [Hout|Hin].
  - rewrite (drop_ge l (Z.to_nat skip)) by lia.
    replace (Z.to_nat (Z.min (skip + limit) (Z.of_nat (length l))
                       - Z.min skip (Z.of_nat (length l)))) with 0%nat by lia.
    by rewrite take_0, take_nil.
  - replace (Z.to_nat (Z.min skip (Z.of_nat (length l)))) with (Z.to_nat skip) by lia.
    destruct (decide (skip + limit <= Z.of_nat (length l))) as [Hfit|Hover].
    + f_equal. lia.
    + rewrite !take_ge; [reflexivity|rewrite length_drop; lia..].
Qed.

Lemma js_slice_sublist {A} (start end_ : Z) (l : list A) :
  js_slice start end_ l `sublist_of` l.
Proof.
  unfold js_slice. etrans; [apply sublist_take|apply sublist_drop].
Qed.

Lemma List_filter_sublist {A} (P : A -> bool) (l : list A) :
  List.filter P l `sublist_of` l.
Proof.
  induction l as [|x l IH]; [constructor|].
  simpl. destruct (P x); by constructor.
Qed.

Lemma concat_chunks {A} (size : nat) (l : list A) (n : nat) :
  concat ((fun k => take size (drop (k * size) l)) <$> seq 0 n) = take (n * size) l.
Proof.
  induction n as [|n IH]; [by rewrite take_0|].
  rewrite seq_S, fmap_app, concat_app, IH. simpl. rewrite app_nil_r.
  rewrite take_take_drop. f_equal. lia.
Qed.

Lemma ceilDiv_bounds (a b : Z) :
  0 <= a -> 1 <= b -> 0 <= ceilDiv a b /\ a <= ceilDiv a b * b < a + b.
Proof.
  intros Ha Hb. unfold ceilDiv.
  pose proof (Z.div_mod (- a) b ltac:(lia)) as Hdm.
  pose proof (Z.mod_pos_bound (- a) b ltac:(lia)) as Hr. nia.
Qed.

Lemma length_omap_le {A B} (f : A -> option B) (l : list A) :
  (length (omap f l) <= length l)%nat.
Proof.
  induction l as [|x l IH]; [done|].
  cbn [omap list_omap]. destruct (f x); simpl; lia.
Qed.

Lemma elem_of_populateOrders (ids : list ObjectId) (db : DB) (o : Order) :
  o ∈ populateOrders ids db -> o ∈ orders db /\ o_id o ∈ ids.
Proof.
  unfold populateOrders. intros Ho. apply list_elem_of_omap in Ho as (id & Hid & Hfind).
  apply findOrderById_Some in Hfind as [Hin <-]. done.
Qed.

(** The orders [getOrdersCurrentUser] pages through: the populated list
    of the user, narrowed by the search. *)
Lemma getOrdersCurrentUser_inr (regExp : string -> option (string -> bool))
    (toNumber : string -> option Z) (userId : ObjectId) (search : option string)
    (page limit : Z) (db : DB) (pg : OrdersPage) :
  getOrdersCurrentUser regExp toNumber userId search page limit db = inr pg ->
  exists user found,
    users db !! userId = Some user
    /\ found `sublist_of` populateOrders (u_orders user) db
    /\ (search = None \/ search = Some "" -> found = populateOrders (u_orders user) db)
    /\ forall page' limit',
         getOrdersCurrentUser regExp toNumber userId search page' limit' db
         = inr (mkOrdersPage
                  (js_slice ((page' - 1) * limit') ((page' - 1) * limit' + limit') found)
                  (mkPagination (Z.of_nat (length found))
                     (if (limit' =? 0)%Z then None
                      else Some (ceilDiv (Z.of_nat (length found)) limit'))
                     page' limit')).
Proof.
  unfold getOrdersCurrentUser. destruct (users db !! userId) as [user|]; [|discriminate].
  destruct search as [text|].
  - destruct (decide (text = "")) as [->|Hne].
    + intros _. exists user, (populateOrders (u_orders user) db). done.
    + destruct (regExp text) as [test|]; [|discriminate]. intros _.
      exists user, (List.filter (matchesSearch test (toNumber text) (products db))
                                (populateOrders (u_orders user) db)).
      split; [reflexivity|]. split; [apply List_filter_sublist|].
      split; [|done]. intros [|[= ->]]; done.
  - intros _. exists user, (populateOrders (u_orders user) db). done.
Qed.

(** X22. [getOrdersCurrentUser] answers only with stored orders whose
    ids are in the caller's own order list, in the order of that list,
    whatever the search, the page and the limit are; the count it reports
    is at most the length of that list. A caller who is not stored gets
    NotFound, and a search text the RegExp constructor rejects is passed
    on as its SyntaxError. *)
Theorem getOrdersCurrentUser_scope (regExp : string -> option (string -> bool))
    (toNumber : string -> option Z) (userId : ObjectId) (search : option string)
    (page limit : Z) (db : DB) :
  (users db !! userId = None ->
   getOrdersCurrentUser regExp toNumber userId search page limit db
   = inl (ListError (HttpError NotFoundError MsgUserAbsent)))
  /\ (forall text, search = Some text -> text <> "" -> regExp text = None ->
        is_Some (users db !! userId) ->
        getOrdersCurrentUser regExp toNumber userId search page limit db
        = inl ListSyntaxError)
  /\ (forall pg,
        getOrdersCurrentUser regExp toNumber userId search page limit db = inr pg ->
        exists user,
          users db !! userId = Some user
          /\ page_orders pg `sublist_of` populateOrders (u_orders user) db
          /\ (forall o, o ∈ page_orders pg -> o ∈ orders db /\ o_id o ∈ u_orders user)
          /\ 0 <= totalOrders (page_pagination pg) <= Z.of_nat (length (u_orders user))).
Proof.
  split; [|split].
  - intros Hnone. unfold getOrdersCurrentUser. by rewrite Hnone.
  - intros text -> Hne Hbad [user Hu]. unfold getOrdersCurrentUser. rewrite Hu.
    rewrite decide_False by done. by rewrite Hbad.
  - intros pg Hpg.
    destruct (getOrdersCurrentUser_inr _ _ _ _ _ _ _ _ Hpg)
      as (user & found & Hu & Hsub & _ & Hall).
    rewrite Hall in Hpg. injection Hpg as <-. simpl. exists user.
    split; [exact Hu|].
    assert (Hpage : js_slice ((page - 1) * limit) ((page - 1) * limit + limit) found
                    `sublist_of` populateOrders (u_orders user) db)
      by (etrans; [apply js_slice_sublist|exact Hsub]).
    split; [exact Hpage|]. split.
    + intros o Ho. apply elem_of_populateOrders.
      exact (elem_of_sublist _ _ _ Ho Hpage).
    + apply sublist_length in Hsub. unfold populateOrders in Hsub.
      pose proof (length_omap_le (fun id => findOrderById id (orders db)) (u_orders user)).
      lia.
Qed.

(** X23. For a limit of at least 1, the pages of [getOrdersCurrentUser]
    partition the orders found: page [p] holds the orders from position
    [(p - 1) * limit] on, at most [limit] of them; the pages after the
    reported last page are empty; and the pages from the first to the
    reported last one, put one after the other, are all the orders found,
    as many as the reported total. *)
Theorem getOrdersCurrentUser_pages (regExp : string -> option (string -> bool))
    (toNumber : string -> option Z) (userId : ObjectId) (search : option string)
    (limit : Z) (db : DB) (pg : OrdersPage) :
  1 <= limit ->
  getOrdersCurrentUser regExp toNumber userId search 1 limit db = inr pg ->
  exists (found : list Order) (n : nat),
    totalOrders (page_pagination pg) = Z.of_nat (length found)
    /\ totalPages (page_pagination pg) = Some (Z.of_nat n)
    /\ (forall page, 1 <= page ->
          exists pg',
            getOrdersCurrentUser regExp toNumber userId search page limit db = inr pg'
            /\ page_pagination pg'
               = mkPagination (Z.of_nat (length found)) (Some (Z.of_nat n)) page limit
            /\ page_orders pg'
               = take (Z.to_nat limit) (drop (Z.to_nat ((page - 1) * limit)) found)
            /\ Z.of_nat (length (page_orders pg')) <= limit
            /\ (Z.of_nat n < page -> page_orders pg' = []))
    /\ concat ((fun page =>
                  match getOrdersCurrentUser regExp toNumber userId search
                          (Z.of_nat page) limit db with
                  | inr pg' => page_orders pg'
                  | inl _ => []
                  end) <$> seq 1 n) = found.
Proof.
  intros Hlimit Hpg.
  destruct (getOrdersCurrentUser_inr _ _ _ _ _ _ _ _ Hpg)
    as (user & found & Hu & Hsub & _ & Hall).
  destruct (ceilDiv_bounds (Z.of_nat (length found)) limit ltac:(lia) Hlimit)
    as [Hn0 Hn].
  assert (Hz : (limit =? 0)%Z = false) by (apply Z.eqb_neq; lia).
  exists found, (Z.to_nat (ceilDiv (Z.of_nat (length found)) limit)).
  rewrite Z2Nat.id by exact Hn0.
  rewrite Hall in Hpg. injection Hpg as <-. simpl. rewrite Hz.
  split; [reflexivity|]. split; [reflexivity|]. split.
  - intros page Hpage. eexists. split; [apply Hall|]. simpl. rewrite Hz.
    split; [reflexivity|]. rewrite js_slice_window by nia.
    split; [reflexivity|]. split.
    + rewrite length_take. lia.
    + intros Hlast. rewrite drop_ge; [apply take_nil|]. nia.
  - rewrite <- (take_ge found (Z.to_nat (ceilDiv (Z.of_nat (length found)) limit)
                            * Z.to_nat limit)) at 2 by nia.
    rewrite <- concat_chunks. rewrite <- fmap_S_seq, <- list_fmap_compose.
    f_equal. apply list_fmap_ext. intros _ k _. simpl. rewrite Hall. simpl.
    rewrite js_slice_window by nia. do 2 f_equal. nia.
Qed.


(** ** The catalog (controllers/products.ts) *)

Lemma elem_of_updateFirst_find {A} (P : A -> bool) (f : A -> A) (l : list A) (p y : A) :
  find P l = Some p -> y ∈ updateFirst P f l -> y ∈ l \/ y = f p.
Proof.
  induction l as [|x l IH]; [discriminate|]. simpl.
  destruct (P x) eqn:Hx.
  - intros [= <-] Hy. apply elem_of_cons in Hy as [->|Hy]; [by right|].
    left. apply elem_of_cons. by right.
  - intros Hfind Hy. apply elem_of_cons in Hy as [->|Hy].
    + left. apply elem_of_cons. by left.
    + destruct (IH Hfind Hy) as [Hin| ->]; [|by right].
      left. apply elem_of_cons. by right.
Qed.

Lemma findProduct_Some (ps : list Product) (id : ObjectId) (p : Product) :
  findProduct ps id = Some p -> p ∈ ps /\ p_id p = id.
Proof.
  unfold findProduct. intros Hfind. apply find_some in Hfind as [Hin Hid].
  split; [by apply list_elem_of_In|by apply bool_decide_eq_true in Hid].
Qed.

Lemma findProduct_removeFirst (ps : list Product) (id : ObjectId) :
  NoDup (p_id <$> ps) ->
  findProduct (removeFirst (fun q => bool_decide (p_id q = id)) ps) id = None.
Proof.
  unfold findProduct. induction ps as [|x ps IH]; [reflexivity|].
  rewrite fmap_cons. intros Hnd. apply NoDup_cons in Hnd as [Hx Hnd]. simpl.
  destruct (bool_decide (p_id x = id)) eqn:Hid.
  - apply bool_decide_eq_true in Hid. subst id.
    destruct (find _ ps) as [q|] eqn:Hq; [|reflexivity].
    apply find_some in Hq as [Hin Hq]. apply bool_decide_eq_true in Hq.
    destruct Hx. rewrite <- Hq. by apply list_elem_of_fmap_2, list_elem_of_In.
  - simpl. rewrite Hid. by apply IH.
Qed.

(** Replacing the first product with an id keeps the titles apart when
    no product with another id has the new title. *)
Lemma NoDup_titles_updateFirst (id : ObjectId) (f : Product -> Product)
    (l : list Product) (p : Product) :
  NoDup (p_id <$> l) ->
  NoDup (p_title <$> l) ->
  findProduct l id = Some p ->
  existsb (fun q => negb (bool_decide (p_id q = id))
                    && bool_decide (p_title q = p_title (f p))) l = false ->
  NoDup (p_title <$> updateFirst (fun q => bool_decide (p_id q = id)) f l).
Proof.
  unfold findProduct. induction l as [|x l IH]; [discriminate|].
  rewrite !fmap_cons. intros Hids Htitles Hfind Hother.
  apply NoDup_cons in Hids as [Hx Hids]. apply NoDup_cons in Htitles as [Htx Htitles].
  simpl in Hfind, Hother |- *. apply orb_false_iff in Hother as [Hox Hother].
  destruct (bool_decide (p_id x = id)) eqn:Hid.
  - apply bool_decide_eq_true in Hid. injection Hfind as <-.
    rewrite fmap_cons. apply NoDup_cons. split; [|exact Htitles].
    intros Hin. apply list_elem_of_fmap in Hin as (q & Hq & Hqin).
    assert (Hqid : p_id q <> id).
    { intros Heq. apply Hx. rewrite Hid, <- Heq. by apply list_elem_of_fmap_2. }
    assert (Hex : existsb (fun q => negb (bool_decide (p_id q = id))
                                   && bool_decide (p_title q = p_title (f x))) l = true).
    { apply existsb_exists. exists q. split; [by apply list_elem_of_In|].
      rewrite bool_decide_eq_false_2 by done. simpl. by apply bool_decide_eq_true. }
    congruence.
  - rewrite fmap_cons. apply NoDup_cons. split; [|by apply IH].
    simpl in Hox. apply bool_decide_eq_false in Hox.
    intros Hin. apply list_elem_of_fmap in Hin as (y & Hy & Hyin).
    destruct (elem_of_updateFirst_find _ f _ _ _ Hfind Hyin) as [Hold| ->].
    + apply Htx. rewrite Hy. by apply list_elem_of_fmap_2.
    + by apply Hox.
Qed.

(** X25. The product handlers change the catalog only, change nothing
    when they fail, and keep the ids and the titles of the catalog
    pairwise distinct: a created product is added with a new id and a
    new title, an update keeps the id, and a title that another product
    has is refused as a conflict. *)
Theorem product_handlers_keep_catalog (db : DB) :
  catalogOk db ->
  (forall body newId,
      catalogOk (snd (createProduct body newId db))
      /\ users (snd (createProduct body newId db)) = users db
      /\ orders (snd (createProduct body newId db)) = orders db
      /\ (forall e, fst (createProduct body newId db) = inl e ->
            snd (createProduct body newId db) = db)
      /\ (forall p, fst (createProduct body newId db) = inr p ->
            p_id p = newId /\ pb_title body = Some (p_title p)
            /\ p_price p = pb_price body
            /\ products (snd (createProduct body newId db)) = products db ++ [p]
            /\ (forall q, q ∈ products db -> p_id q <> newId /\ p_title q <> p_title p)))
  /\ (forall productId body,
        catalogOk (snd (updateProduct productId body db))
        /\ users (snd (updateProduct productId body db)) = users db
        /\ orders (snd (updateProduct productId body db)) = orders db
        /\ p_id <$> products (snd (updateProduct productId body db)) = p_id <$> products db
        /\ (forall e, fst (updateProduct productId body db) = inl e ->
              snd (updateProduct productId body db) = db))
  /\ (forall productId,
        catalogOk (snd (deleteProduct productId db))
        /\ users (snd (deleteProduct productId db)) = users db
        /\ orders (snd (deleteProduct productId db)) = orders db
        /\ (forall e, fst (deleteProduct productId db) = inl e ->
              snd (deleteProduct productId db) = db)).
Proof.
  intros [Hids Htitles]. split; [|split].
  - intros body newId. unfold createProduct.
    destruct (validateProduct body) as [|path paths] eqn:Hvalid; [|by repeat split].
    destruct (bool_decide (_ ∈ (p_title <$> _))) eqn:Ht; [by repeat split|].
    destruct (bool_decide (_ ∈ (p_id <$> _))) eqn:Hi; [by repeat split|].
    apply bool_decide_eq_false in Ht, Hi. simpl in Ht |- *.
    assert (Htitle : exists t, pb_title body = Some t).
    { unfold validateProduct in Hvalid. destruct (pb_title body); [eauto|discriminate]. }
    destruct Htitle as [t Htitle]. rewrite Htitle in Ht |- *. simpl in Ht |- *.
    split; [|split; [reflexivity|split; [reflexivity|split; [discriminate|]]]].
    + unfold catalogOk. simpl. rewrite !fmap_app. simpl. split.
      * apply NoDup_app. split; [exact Hids|]. split; [|apply NoDup_singleton].
        intros x Hx Hnew. apply list_elem_of_singleton in Hnew. by subst x.
      * apply NoDup_app. split; [exact Htitles|]. split; [|apply NoDup_singleton].
        intros x Hx Hnew. apply list_elem_of_singleton in Hnew. by subst x.
    + intros p [= <-]. simpl. repeat split.
      * intros Heq. apply Hi. rewrite <- Heq. by apply list_elem_of_fmap_2.
      * intros Heq. apply Ht. rewrite <- Heq. by apply list_elem_of_fmap_2.
  - intros productId body. unfold updateProduct.
    destruct productId as [id|]; [|by repeat split].
    destruct (validateProductUpdate body) as [|path paths]; [|by repeat split].
    destruct (findProduct (products db) id) as [p|] eqn:Hfind; [|by repeat split].
    destruct (existsb _ (products db)) eqn:Hother; [by repeat split|].
    simpl. split; [|split; [reflexivity|split; [reflexivity|split; [|discriminate]]]].
    + unfold catalogOk. simpl. split.
      * by rewrite fmap_updateFirst.
      * by apply (NoDup_titles_updateFirst id _ _ p).
    + by apply fmap_updateFirst.
  - intros productId. unfold deleteProduct.
    destruct productId as [id|]; [|by repeat split].
    destruct (findProduct (products db) id) as [p|]; [|by repeat split].
    simpl. split; [|split; [reflexivity|split; [reflexivity|discriminate]]].
    unfold catalogOk. simpl.
    split; eapply sublist_NoDup; eauto using fmap_removeFirst_sublist.
Qed.

Section CatalogFacts.
Context `{Platform}.

(** An order that names an item without a product or without a price
    is refused, and the store stays as it was. *)
Lemma createOrder_offending_item (userId : ObjectId) (body : OrderBody) (newId : ObjectId)
    (now : Z) (db : DB) (id : ObjectId) :
  id ∈ b_items body ->
  unknownItem (products db) id \/ nullPriceItem (products db) id ->
  exists m, createOrder userId body newId now db
            = (Failed (HttpError BadRequestError m), db).
Proof.
  intros Hin Hbad. unfold createOrder.
  destruct (fillBasket (products db) (b_items body) []) as [e|basket] eqn:Hfill.
  - apply fillBasket_inl in Hfill as (i & _ & [[_ ->]|[_ ->]]); eauto.
  - apply fillBasket_inr in Hfill as [_ Hall]. destruct (Hall id Hin). tauto.
Qed.

(** X26. [updateProduct] writes the price on every update: the stored
    price is the price of the body, and no price when the body has none
    or has 0, whatever the price was. A product updated without a price,
    like a deleted product, can no longer be ordered: every order that
    names it is refused, while the stored orders stay as they are. *)
Theorem product_changes_reach_orders (id : ObjectId) (db : DB) :
  (forall body p' db',
      updateProduct (Some id) body db = (inr p', db') ->
      p_id p' = id
      /\ findProduct (products db') id = Some p'
      /\ p_price p' = updatedPrice body
      /\ (pb_price body = None \/ pb_price body = Some 0 ->
          p_price p' = None
          /\ forall userId ob newId now,
               id ∈ b_items ob ->
               exists m, createOrder userId ob newId now db'
                         = (Failed (HttpError BadRequestError m), db')))
  /\ (forall p db',
        deleteProduct (Some id) db = (inr p, db') ->
        NoDup (p_id <$> products db) ->
        findProduct (products db) id = Some p
        /\ findProduct (products db') id = None
        /\ orders db' = orders db
        /\ forall userId ob newId now,
             id ∈ b_items ob ->
             exists m, createOrder userId ob newId now db'
                       = (Failed (HttpError BadRequestError m), db')).
Proof.
  split.
  - intros body p' db'. unfold updateProduct.
    destruct (validateProductUpdate body) as [|path paths]; [|discriminate].
    destruct (findProduct (products db) id) as [p|] eqn:Hfind; [|discriminate].
    destruct (existsb _ (products db)); [discriminate|].
    intros [= <- <-]. destruct (findProduct_Some _ _ _ Hfind) as [_ Hid].
    assert (Hfound : findProduct
                       (products
                          (set_products
                             (updateFirst (fun q => bool_decide (p_id q = id))
                                          (applyProductUpdate body)) db)) id
                     = Some (applyProductUpdate body p)).
    { unfold findProduct in *. simpl. rewrite find_updateFirst_same by done.
      by rewrite Hfind. }
    split; [exact Hid|]. split; [exact Hfound|]. split; [reflexivity|].
    intros Hprice.
    assert (Hnull : p_price (applyProductUpdate body p) = None).
    { simpl. unfold updatedPrice. by destruct Hprice as [->| ->]. }
    split; [exact Hnull|]. intros userId ob newId now Hin.
    apply (createOrder_offending_item _ _ _ _ _ id Hin). right.
    exists (applyProductUpdate body p). split; [exact Hfound|exact Hnull].
  - intros p db'. unfold deleteProduct.
    destruct (findProduct (products db) id) as [q|] eqn:Hfind; [|discriminate].
    intros [= <- <-] Hnd.
    assert (Hgone : findProduct
                      (products
                         (set_products
                            (removeFirst (fun q => bool_decide (p_id q = id))) db)) id
                    = None) by (simpl; by apply findProduct_removeFirst).
    split; [reflexivity|]. split; [exact Hgone|]. split; [reflexivity|].
    intros userId ob newId now Hin.
    apply (createOrder_offending_item _ _ _ _ _ id Hin). by left.
Qed.

End CatalogFacts.

(** ** The phone pattern (middlewares/validations.ts) *)

Lemma nullable_Matches (r : RegExp) : nullable r = true <-> Matches r [].
Proof.
  split.
  - induction r as [| |test|r1 IH1 r2 IH2|r1 IH1 r2 IH2|r IH]; simpl; intros Hn;
      try discriminate.
    + constructor.
    + apply andb_true_iff in Hn as [H1 H2].
      change (@nil ascii) with (@nil ascii ++ []). constructor; auto.
    + apply orb_true_iff in Hn as [H1|H2]; [apply MatchAltL|apply MatchAltR]; auto.
    + constructor.
  - intros Hm. remember [] as s eqn:Hs.
    induction Hm as [|test c Hc|r1 r2 s1 s2 H1 IH1 H2 IH2|r1 r2 s H1 IH1|r1 r2 s H2 IH2
                     |r|r s1 s2 H1 IH1 H2 IH2]; simpl; try done.
    + apply app_eq_nil in Hs as [-> ->]. by rewrite IH1, IH2.
    + by rewrite IH1.
    + rewrite IH2 by done. apply orb_true_r.
Qed.

Lemma derive_Matches (c : ascii) (r : RegExp) (s : list ascii) :
  Matches (derive c r) s <-> Matches r (c :: s).
Proof.
  split.
  - revert s. induction r as [| |test|r1 IH1 r2 IH2|r1 IH1 r2 IH2|r IH];
      simpl; intros s Hm.
    + inversion Hm.
    + inversion Hm.
    + destruct (test c) eqn:Hc; inversion Hm; subst. by constructor.
    + destruct (nullable r1) eqn:Hn.
      * inversion Hm as [| | |? ? ? Hl|? ? ? Hr| |]; subst.
        -- inversion Hl as [| |? ? s1 s2 Ha Hb| | | |]; subst.
           change (c :: s1 ++ s2) with ((c :: s1) ++ s2). constructor; auto.
        -- change (c :: s) with ([] ++ c :: s). constructor; [|auto].
           by apply nullable_Matches.
      * inversion Hm as [| |? ? s1 s2 Ha Hb| | | |]; subst.
        change (c :: s1 ++ s2) with ((c :: s1) ++ s2). constructor; auto.
    + inversion Hm; subst; [apply MatchAltL|apply MatchAltR]; auto.
    + inversion Hm as [| |? ? s1 s2 Ha Hb| | | |]; subst.
      change (c :: s1 ++ s2) with ((c :: s1) ++ s2). constructor; auto.
  - intros Hm. remember (c :: s) as cs eqn:Hcs. revert s Hcs.
    induction Hm as [|test c' Hc|r1 r2 s1 s2 H1 IH1 H2 IH2|r1 r2 s' H1 IH1|r1 r2 s' H2 IH2
                     |r|r s1 s2 H1 IH1 H2 IH2]; intros s Hcs; simpl; try discriminate.
    + injection Hcs as -> <-. rewrite Hc. constructor.
    + destruct s1 as [|c1 s1].
      * simpl in Hcs. subst s2. apply nullable_Matches in H1. rewrite H1.
        apply MatchAltR. by apply IH2.
      * injection Hcs as -> <-.
        destruct (nullable r1); [apply MatchAltL|]; constructor; auto.
    + apply MatchAltL. auto.
    + apply MatchAltR. auto.
    + destruct s1 as [|c1 s1].
      * simpl in Hcs. by apply IH2.
      * injection Hcs as -> <-. constructor; auto.
Qed.

(** The matcher decides the match of the whole string. *)
Lemma regExp_test_Matches (r : RegExp) (s : string) :
  regExp_test r s = true <-> Matches r (list_ascii_of_string s).
Proof.
  unfold regExp_test. generalize (list_ascii_of_string s) as l. clear s.
  intros l. revert r. induction l as [|c l IH]; intros r; simpl.
  - apply nullable_Matches.
  - rewrite IH. apply derive_Matches.
Qed.

Lemma Matches_classesWithin (P : ascii -> Prop) (r : RegExp) (s : list ascii) :
  Matches r s -> classesWithin P r -> Forall P s.
Proof.
  induction 1 as [|test c Hc|r1 r2 s1 s2 H1 IH1 H2 IH2|r1 r2 s' H1 IH1|r1 r2 s' H2 IH2
                  |r|r s1 s2 H1 IH1 H2 IH2]; simpl; intros Hcl.
  - constructor.
  - constructor; [auto|constructor].
  - destruct Hcl. apply Forall_app; auto.
  - destruct Hcl. auto.
  - destruct Hcl. auto.
  - constructor.
  - apply Forall_app; auto.
Qed.

Lemma eqb_char_true (a c : ascii) : Ascii.eqb a c = true -> c = a.
Proof. intros Heq. by apply Ascii.eqb_eq in Heq. Qed.

(** X27. The phone pattern asks for no digit and bounds no length: it
    matches the empty string and every string of digits, blanks and
    dashes. *)
Theorem phoneRegExp_accepts_plain (s : string) :
  forallb (fun c => isDigit c || isWhiteSpace c || Ascii.eqb "-" c)
          (list_ascii_of_string s) = true ->
  regExp_test phoneRegExp s = true.
Proof.
  intros Hplain. apply regExp_test_Matches. revert Hplain.
  generalize (list_ascii_of_string s) as l. clear s. intros l Hplain.
  set (unit :=
         ReAlt (ReClass isWhiteSpace)
           (ReAlt (ReOpt (ReChar "-"))
              (ReSeq (ReOpt (ReChar "("))
                 (ReSeq (RePlus (ReClass isDigit)) (ReOpt (ReChar ")")))))).
  assert (Hone : forall c, (isDigit c || isWhiteSpace c || Ascii.eqb "-" c) = true ->
                           Matches unit [c]).
  { intros c Hc. apply orb_true_iff in Hc as [Hc|Hdash];
      [apply orb_true_iff in Hc as [Hd|Hw]|].
    - apply MatchAltR, MatchAltR.
      change [c] with ([] ++ ([c] ++ []) ++ []).
      constructor; [apply MatchAltR; constructor|].
      rewrite app_nil_r. constructor; [|apply MatchAltR; constructor].
      change [c] with ([c] ++ []). constructor; [by constructor|constructor].
    - apply MatchAltL. by constructor.
    - apply MatchAltR, MatchAltL, MatchAltL. by constructor. }
  assert (Hstar : forall l', forallb (fun c => isDigit c || isWhiteSpace c || Ascii.eqb "-" c) l'
                             = true -> Matches (ReStar unit) l').
  { induction l' as [|c l' IH]; intros Hl'; [constructor|].
    simpl in Hl'. apply andb_true_iff in Hl' as [Hc Hl'].
    change (c :: l') with ([c] ++ l'). constructor; auto. }
  change l with ([] ++ l). constructor; [apply MatchAltR; constructor|].
  destruct l as [|c l].
  - change (@nil ascii) with (@nil ascii ++ []). constructor; [|constructor].
    apply MatchAltR, MatchAltL, MatchAltR. constructor.
  - simpl in Hplain. apply andb_true_iff in Hplain as [Hc Hl].
    change (c :: l) with ([c] ++ l). constructor; auto.
Qed.

(** X28. A string the phone pattern matches holds nothing but digits,
    blanks and the four characters [+-()], and holds [+] nowhere but as
    its first character. *)
Theorem phoneRegExp_alphabet (s : string) :
  regExp_test phoneRegExp s = true ->
  forallb phoneChar (list_ascii_of_string s) = true
  /\ forall c rest, list_ascii_of_string s = c :: rest -> "+"%char ∉ rest.
Proof.
  intros Htest. apply regExp_test_Matches in Htest. revert Htest.
  generalize (list_ascii_of_string s) as l. clear s. intros l Hm. split.
  - apply forallb_forall. intros c Hc.
    assert (Hall : Forall (fun c => phoneChar c = true) l).
    { apply (Matches_classesWithin _ _ _ Hm).
      unfold phoneRegExp, ReOpt, RePlus, ReChar. cbn [classesWithin].
      repeat split; intros x Hx;
        first [ apply eqb_char_true in Hx; subst x; reflexivity
              | unfold phoneChar; rewrite Hx; rewrite ?orb_true_r; reflexivity ]. }
    rewrite Forall_forall in Hall. by apply Hall, list_elem_of_In.
  - assert (Hdigit : forall x, isDigit x = true -> x <> "+"%char)
      by (intros x Hx ->; discriminate).
    assert (Hlater : forall r l', Matches r l' ->
               classesWithin (fun x => x <> "+"%char) r -> "+"%char ∉ l').
    { intros r l' Hr Hcl Hin.
      pose proof (Matches_classesWithin _ _ _ Hr Hcl) as Hall.
      rewrite Forall_forall in Hall. by apply (Hall _ Hin). }
    inversion Hm as [| |r1 r2 s1 s2 Hpre Hbody| | | |]; subst.
    assert (Hs2 : "+"%char ∉ s2).
    { apply (Hlater _ _ Hbody). unfold ReOpt, RePlus, ReChar. cbn [classesWithin].
      repeat split; try exact Hdigit; intros x Hx;
        first [ apply eqb_char_true in Hx; subst x; discriminate
              | intros ->; discriminate ]. }
    inversion Hpre as [| | |? ? ? Hplus|? ? ? Hnone| |]; subst.
    + inversion Hplus as [| |? ? p1 p2 Hp1 Hp2| | | |]; subst.
      inversion Hp1; subst. simpl. intros c0 rest [= <- <-].
      intros Hin. apply elem_of_app in Hin as [Hin|Hin]; [|by apply Hs2].
      revert Hin. apply (Hlater _ _ Hp2). unfold RePlus. cbn [classesWithin]. auto.
    + inversion Hnone; subst. simpl. intros c0 rest ->.
      intros Hin. apply Hs2. apply elem_of_cons. by right.
Qed.

(** ** The further properties on the small store *)

Section FurtherExamples.
#[local] Existing Instance SimplePlatform.

Lemma order_numbers_unique_in_reachable_stores_witness :
  NoDup (o_orderNumber <$>
           orders (run [(PostOrder 1%nat (basketBody [10%nat; 11%nat] 30) 100%nat, 50);
                        (PostOrder 2%nat (basketBody [10%nat] 10) 101%nat, 60);
                        (DeleteOrder (Some 100%nat), 70);
                        (PostOrder 1%nat (basketBody [11%nat] 20) 102%nat, 80)] shop0)).
Proof.
  destruct (order_numbers_unique_in_reachable_stores
              [(PostOrder 1%nat (basketBody [10%nat; 11%nat] 30) 100%nat, 50);
               (PostOrder 2%nat (basketBody [10%nat] 10) 101%nat, 60);
               (DeleteOrder (Some 100%nat), 70);
               (PostOrder 1%nat (basketBody [11%nat] 20) 102%nat, 80)] shop0)
    as (_ & Hnums & _); [reflexivity..|exact Hnums].
Defined.


Lemma deleteOrder_outcomes_witness :
  fst (deleteOrder (Some 100%nat) (snd (deleteOrder (Some 100%nat) shop1)))
  = Failed (HttpError NotFoundError MsgOrderAbsent).
Proof.
  destruct (deleteOrder_outcomes (Some 100%nat) shop1) as [_ Hdone].
  destruct (Hdone aliceOrder) as (_ & _ & _ & _ & Hagain);
    [reflexivity | vm_compute; apply NoDup_singleton | exact Hagain].
Defined.

Lemma updateOrder_outcomes_witness :
  exists n o,
    findOrderByNumber n (orders shop1) = Some o
    /\ findOrderByNumber n (orders (snd (updateOrder (Some 1) "completed" shop1)))
       = Some (with_status "completed" o).
Proof.
  destruct (updateOrder_outcomes (Some 1) "completed" shop1) as (_ & _ & Hdone).
  destruct (Hdone (with_status "completed" aliceOrder))
    as (n & o & _ & _ & Hbefore & Heq & Hafter & _); [reflexivity|].
  exists n, o. split; [exact Hbefore|]. by rewrite <- Heq.
Defined.


Lemma deleteCustomer_leaves_orders_witness :
  getOrderByNumber (Some 1) (snd (deleteCustomer (Some 1%nat) shop1)) = Done aliceOrder
  /\ getOrderCurrentUserByNumber 1%nat (Some 1) (snd (deleteCustomer (Some 1%nat) shop1))
     = Failed (Raw TypeError).
Proof.
  edestruct (deleteCustomer_leaves_orders 1%nat shop1) as (_ & _ & _ & Hdangling);
    [reflexivity|].
  apply (Hdangling 1 aliceOrder 1%nat); reflexivity.
Defined.

Lemma login_outcomes_witness :
  fst (login "alice@shop.io" "lookingglass" 5 shop0)
  = Failed (HttpError UnauthorizedError MsgBadCredentials)
  /\ fst (login "nobody@shop.io" "wonderland" 5 shop0)
     = Failed (HttpError UnauthorizedError MsgBadCredentials)
  /\ exists s, fst (login "alice@shop.io" "wonderland" 5 shop0) = Done s
               /\ users shop0 !! fst (ses_user s) = Some alice.
Proof.
  split; [reflexivity|]. split; [reflexivity|].
  destruct (login_outcomes "alice@shop.io" "wonderland" 5 shop0) as (_ & _ & Hdone).
  eexists. split; [reflexivity|].
  edestruct Hdone as (u & Hu & _); [reflexivity|].
  reflexivity.
Defined.

Lemma register_outcomes_witness :
  u_roles <$> users carolShop !! 4%nat = Some [Customer]
  /\ u_tokens <$> users carolShop !! 4%nat
     = Some [hmac_sha256_hex REFRESH_TOKEN_secret carolToken].
Proof.
  destruct (register_outcomes "carol@shop.io" "secret1" None 4%nat 7 1000 shop0)
    as (_ & _ & Hdone).
  edestruct Hdone as (_ & _ & _ & Hstored & _ & _ & Huser); [reflexivity|].
  unfold carolShop. rewrite Hstored, Huser. split; reflexivity.
Defined.

Lemma logout_outcomes_witness :
  u_tokens <$> users (snd (logout (Some carolToken) 1001 carolShop)) !! 4%nat = Some []
  /\ logout (Some carolToken) 1001 (snd (logout (Some carolToken) 1001 carolShop))
     = (Done tt, snd (logout (Some carolToken) 1001 carolShop)).
Proof.
  destruct (logout_outcomes (Some carolToken) 1001 carolShop) as (_ & _ & Hdone).
  destruct Hdone as (t & p & uid & u & _ & _ & _ & _ & _ & _ & _ & Hagain); [reflexivity|].
  split; [reflexivity|exact Hagain].
Defined.

Lemma auth_ignores_text_after_token_witness :
  auth (Some ("Bearer " +:+ "access-secret|1|1|99" +:+ String " " "and more")) 6 shop0
  = auth (Some ("Bearer " +:+ "access-secret|1|1|99")) 6 shop0.
Proof.
  apply (auth_ignores_text_after_token "access-secret|1|1|99" "and more" 6 shop0).
  reflexivity.
Defined.

Lemma authenticated_user_is_found_witness :
  getCurrentUser 1%nat shop0 = Done (toJSON 1%nat alice).
Proof.
  destruct (authenticated_user_is_found (Some "Bearer access-secret|1|1|99") 6 shop0
              1%nat alice) as [Hfound _]; [reflexivity|exact Hfound].
Defined.

Lemma patch_user_grants_admin_witness :
  exists u',
    users (snd (updateCurrentUser 2%nat (mkUserPatch None None None (Some [Admin])) shop0))
      !! 2%nat = Some u'
    /\ roleGuardMiddleware [Customer] (Some (2%nat, bob)) = Done tt
    /\ roleGuardMiddleware [Admin] (Some (2%nat, bob))
       = Failed (HttpError ForbiddenError MsgAccessDenied)
    /\ roleGuardMiddleware [Admin] (Some (2%nat, u')) = Done tt.
Proof.
  destruct (patch_user_grants_admin 2%nat (mkUserPatch None None None (Some [Admin])) shop0
              bob [Admin]) as (u' & _ & Hstored & _ & Hguard & _);
    [reflexivity | reflexivity | apply list_elem_of_singleton; reflexivity |].
  exists u'. split; [exact Hstored|]. split; [reflexivity|]. split; [reflexivity|exact Hguard].
Defined.

Lemma unverified_cookie_is_server_error_witness :
  exists e,
    refreshAccessToken (Some "access-secret|4|4|605800") 1001 carolShop
    = (Failed (Raw e), carolShop)
    /\ errorHandler (fun _ => 401) (Raw e) = (500, ServerErrorText).
Proof.
  destruct (unverified_cookie_is_server_error (fun _ => 401)
              "access-secret|4|4|605800" 1001 carolShop)
    as ((e & Hrefresh & _ & _ & Hanswer) & _);
    [done | intros p; vm_compute; discriminate |].
  exists e. split; [exact Hrefresh|exact Hanswer].
Defined.

Lemma getOrdersCurrentUser_pages_witness :
  exists found,
    concat ((fun page =>
               match getOrdersCurrentUser (fun _ => None) (fun _ => None) 1%nat None
                       (Z.of_nat page) 1 shop1 with
               | inr pg' => page_orders pg'
               | inl _ => []
               end) <$> seq 1 1) = found
    /\ Z.of_nat (length found) = 1.
Proof.
  destruct (getOrdersCurrentUser_pages (fun _ => None) (fun _ => None) 1%nat None 1 shop1
              (mkOrdersPage [aliceOrder] (mkPagination 1 (Some 1) 1 1)))
    as (found & n & Htotal & Hpages & _ & Hcover); [lia | reflexivity |].
  exists found. simpl in Htotal, Hpages. injection Hpages as Hn.
  assert (n = 1%nat) as -> by lia. split; [exact Hcover|lia].
Defined.


Lemma product_handlers_keep_catalog_witness :
  catalogOk (snd (updateProduct (Some 10%nat)
                    (mkProductBody (Some "cup") None (Some 12) None) shop0))
  /\ fst (updateProduct (Some 10%nat) (mkProductBody (Some "lamp") None (Some 12) None) shop0)
     = inl (ProductHttpError ConflictError MsgTitleTaken).
Proof.
  assert (Hok : catalogOk shop0).
  { split; vm_compute;
      repeat (apply NoDup_cons; split;
              [intros Hin;
               repeat (apply elem_of_cons in Hin as [Hin|Hin]; [discriminate|]);
               by apply elem_of_nil in Hin|]);
      apply NoDup_nil_2. }
  destruct (product_handlers_keep_catalog shop0 Hok) as (_ & Hupdate & _).
  destruct (Hupdate (Some 10%nat) (mkProductBody (Some "cup") None (Some 12) None))
    as (Hcatalog & _).
  split; [exact Hcatalog|reflexivity].
Defined.

Lemma product_changes_reach_orders_witness :
  exists m,
    createOrder 1%nat (basketBody [11%nat; 10%nat] 30) 100%nat 50
      (snd (updateProduct (Some 10%nat) (mkProductBody (Some "cup") None None None) shop0))
    = (Failed (HttpError BadRequestError m),
       snd (updateProduct (Some 10%nat) (mkProductBody (Some "cup") None None None) shop0)).
Proof.
  destruct (product_changes_reach_orders 10%nat shop0) as [Hupdate _].
  edestruct (Hupdate (mkProductBody (Some "cup") None None None))
    as (_ & _ & _ & Hoff); [reflexivity|].
  destruct Hoff as [_ Hrefused]; [by left|].
  apply Hrefused. vm_compute. apply elem_of_cons. right. apply elem_of_cons. by left.
Defined.

Lemma phoneRegExp_accepts_plain_witness :
  regExp_test phoneRegExp "8 800 555-35-35" = true
  /\ regExp_test phoneRegExp "" = true.
Proof.
  split; apply phoneRegExp_accepts_plain; reflexivity.
Defined.

Lemma phoneRegExp_alphabet_witness :
  forallb phoneChar (list_ascii_of_string "+7 (912) 345-67-89") = true.
Proof.
  destruct (phoneRegExp_alphabet "+7 (912) 345-67-89") as [Hchars _];
    [reflexivity|exact Hchars].
Defined.

End FurtherExamples.
